(** * Velora: routing enforcement, checked against its specification

    A shallow embedding of
    - [internal/config/model.go]       (the configuration and [Validate]),
    - [internal/azure] client factory  (the shared [ClientFactory]),
    - [internal/controllers/routing/routing.go] (the enforcement loops),
    followed by the theorems that settle the claims of the specification.

    Go values are modelled as the code uses them: strings are [string],
    a pointer the code nil-checks is an [option], a pointer the code
    dereferences unconditionally is the value itself (a nil there is a Go
    panic, which this development does not model), [error] results are
    message strings, and the Azure SDK is a record of functions (a test
    double) over an arbitrary cloud state. *)

From Stdlib Require Import ZArith Ascii.
From stdpp Require Import gmap strings list fin_maps.

Open Scope string_scope.
Open Scope list_scope.

(** ** Go results *)

(** A Go return of the shape [(value, error)]: the error is its message. *)
Inductive Outcome (A : Type) :=
| Ok (a : A)
| Err (msg : string).
Arguments Ok {A} a.
Arguments Err {A} msg.

(** ** Go strings *)

Module gostrings.

(** [strings.Split(s, sep)] for a one-character separator: the result is
    never empty, and an empty [s] gives one empty field. *)
Fixpoint Split (sep : Ascii.ascii) (s : string) : list string :=
  match s with
  | EmptyString => [EmptyString]
  | String c rest =>
      if Ascii.eqb c sep then EmptyString :: Split sep rest
      else match Split sep rest with
           | [] => [String c EmptyString]
           | w :: ws => String c w :: ws
           end
  end.

End gostrings.

(** ** [internal/config/model.go] *)

Module config.

Record AzureConfig := {
  SubscriptionID : string;
  TenantID : string;
  ClientID : string;
  ClientSecret : string;
  UseAzureIdentity : bool
}.

Record HubVNetConfig := {
  VNetID : string;
  ResourceGroup : string;
  Name : string;
  NVANextHop : string
}.

Record SubscriptionConfig := {
  AllowedCIDRs : list string;
  HubName : string;
  RequireHubPeering : bool;
  RequireNVARouting : bool;
  SubnetToSubnetDeny : bool
}.

Record FeaturesConfig := {
  IPAMEnforcement : bool;
  RoutingEnforcement : bool;
  PeeringEnforcement : bool;
  ComplianceScanning : bool;
  AutoRemediation : bool
}.

Record APIConfig := {
  ListenAddress : string;
  Port : Z;
  TLSEnabled : bool;
  TLSCertPath : string;
  TLSKeyPath : string
}.

Record LoggingConfig := {
  Level : string;
  Format : string;
  OutputPath : string
}.

(** [Subscriptions] is a Go [map[string]SubscriptionConfig]. Every use in
    the code is a [range] over it, whose order Go leaves unspecified: the
    list is the order in which one run visits the entries, and the theorems
    hold for every order. *)
Record Config := {
  Azure : AzureConfig;
  Hubs : list HubVNetConfig;
  Subscriptions : list (string * SubscriptionConfig);
  Features : FeaturesConfig;
  API : APIConfig;
  Logging : LoggingConfig
}.

Section Validate.

(** The two parsers of Go's [net] package that [Validate] consults:
    [ParseCIDR s] is true when [net.ParseCIDR(s)] returns a nil error,
    [ParseIP s] when [net.ParseIP(s)] is not nil. *)
Variable ParseCIDR : string -> bool.
Variable ParseIP : string -> bool.

(** The inner loop of the first block: the first CIDR that does not
    parse. *)
Fixpoint firstBadCIDR (cidrs : list string) : option string :=
  match cidrs with
  | [] => None
  | cidr :: rest => if ParseCIDR cidr then firstBadCIDR rest else Some cidr
  end.

Fixpoint validateCIDRs (subs : list (string * SubscriptionConfig)) : option string :=
  match subs with
  | [] => None
  | (_, subConfig) :: rest =>
      match firstBadCIDR (AllowedCIDRs subConfig) with
      | Some cidr => Some ("invalid CIDR in allowedIPRanges: " +:+ cidr)
      | None => validateCIDRs rest
      end
  end.

Fixpoint validateNVAIPs (hubs : list HubVNetConfig) : option string :=
  match hubs with
  | [] => None
  | hub :: rest =>
      if negb (String.eqb (NVANextHop hub) EmptyString) && negb (ParseIP (NVANextHop hub))
      then Some ("invalid NVA IP: " +:+ NVANextHop hub)
      else validateNVAIPs rest
  end.

(** [Config.Validate]: [None] is Go's nil error. *)
Definition Validate (c : Config) : option string :=
  match validateCIDRs (Subscriptions c) with
  | Some e => Some e
  | None =>
      if Nat.eqb (length (Hubs c)) 0
      then Some "at least one hub configuration is required"
      else validateNVAIPs (Hubs c)
  end.

End Validate.

End config.

(** ** [internal/config]: the loader *)

Module loader.
Import config.

(** The environment variable that names the configuration file, the
    default path and the prefix of the overriding variables. *)
Definition ConfigEnvVar : string := "VELORA_CONFIG".
Definition DefaultConfigPath : string := "~/.velora/config.json".
Definition EnvPrefix : string := "VELORA_".

Section Loader.

(** What the loader asks of Go's library: [os.Getenv] (an unset variable
    reads as the empty string), [os.ReadFile], [json.Unmarshal] into a
    zero [Config], [strings.ToLower] and [strconv.Atoi] ([None] is a
    non-nil error). *)
Variable Getenv : string -> string.
Variable ReadFile : string -> Outcome string.
Variable Unmarshal : string -> Outcome Config.
Variable ToLower : string -> string.
Variable Atoi : string -> option Z.

(** [if val := os.Getenv(EnvPrefix + name); val != "" { field = val }]. *)
Definition orEnv (name : string) (field : string) : string :=
  let val := Getenv (EnvPrefix +:+ name) in
  if String.eqb val EmptyString then field else val.

(** [if val := os.Getenv(EnvPrefix + name); val != "" { flag =
    strings.ToLower(val) == "true" }]. *)
Definition flagOrEnv (name : string) (flag : bool) : bool :=
  let val := Getenv (EnvPrefix +:+ name) in
  if String.eqb val EmptyString then flag else String.eqb (ToLower val) "true".

(** Lines 62-71: the Azure overrides. *)
Definition overrideAzure (a : AzureConfig) : AzureConfig :=
  {| SubscriptionID := orEnv "AZURE_SUBSCRIPTION_ID" (SubscriptionID a);
     TenantID := orEnv "AZURE_TENANT_ID" (TenantID a);
     ClientID := orEnv "AZURE_CLIENT_ID" (ClientID a);
     ClientSecret := ClientSecret a;
     UseAzureIdentity := UseAzureIdentity a |}.

(** Lines 73-88: the feature flag overrides. *)
Definition overrideFeatures (f : FeaturesConfig) : FeaturesConfig :=
  {| IPAMEnforcement := flagOrEnv "FEATURE_IPAM_ENFORCEMENT" (IPAMEnforcement f);
     RoutingEnforcement := flagOrEnv "FEATURE_ROUTING_ENFORCEMENT" (RoutingEnforcement f);
     PeeringEnforcement := flagOrEnv "FEATURE_PEERING_ENFORCEMENT" (PeeringEnforcement f);
     ComplianceScanning := flagOrEnv "FEATURE_COMPLIANCE_SCANNING" (ComplianceScanning f);
     AutoRemediation := flagOrEnv "FEATURE_AUTO_REMEDIATION" (AutoRemediation f) |}.

(** Lines 102-108: the logging overrides. *)
Definition overrideLogging (l : LoggingConfig) : LoggingConfig :=
  {| Level := orEnv "LOGGING_LEVEL" (Level l);
     Format := orEnv "LOGGING_FORMAT" (Format l);
     OutputPath := OutputPath l |}.

(** [overrideFromEnv] assigns through the pointer it is given and returns
    an error: the result is the configuration as the function leaves it
    and the error ([None] is nil). A port that does not parse returns at
    line 98, after the Azure, feature and listen-address overrides and
    before the logging ones. *)
Definition overrideFromEnv (cfg : Config) : Config * option string :=
  let azure := overrideAzure (Azure cfg) in
  let features := overrideFeatures (Features cfg) in
  let listen := orEnv "API_LISTEN_ADDRESS" (ListenAddress (API cfg)) in
  let api (port : Z) : APIConfig :=
    {| ListenAddress := listen; Port := port; TLSEnabled := TLSEnabled (API cfg);
       TLSCertPath := TLSCertPath (API cfg); TLSKeyPath := TLSKeyPath (API cfg) |} in
  let val := Getenv (EnvPrefix +:+ "API_PORT") in
  if String.eqb val EmptyString then
    ({| Azure := azure; Hubs := Hubs cfg; Subscriptions := Subscriptions cfg;
        Features := features; API := api (Port (API cfg));
        Logging := overrideLogging (Logging cfg) |}, None)
  else
    match Atoi val with
    | Some port =>
        ({| Azure := azure; Hubs := Hubs cfg; Subscriptions := Subscriptions cfg;
            Features := features; API := api port;
            Logging := overrideLogging (Logging cfg) |}, None)
    | None =>
        ({| Azure := azure; Hubs := Hubs cfg; Subscriptions := Subscriptions cfg;
            Features := features; API := api (Port (API cfg));
            Logging := Logging cfg |},
         Some ("invalid API port: " +:+ val))
    end.

(** [loadFromFile]. *)
Definition loadFromFile (path : string) : Outcome Config :=
  match ReadFile path with
  | Err e => Err ("error reading config file: " +:+ e)
  | Ok data =>
      match Unmarshal data with
      | Err e => Err ("error parsing config file: " +:+ e)
      | Ok cfg => Ok cfg
      end
  end.

(** Lines 22-27: the path that is read. *)
Definition configPath (path : string) : string :=
  if String.eqb path EmptyString then
    if String.eqb (Getenv ConfigEnvVar) EmptyString then DefaultConfigPath
    else Getenv ConfigEnvVar
  else path.

Variable ParseCIDR : string -> bool.
Variable ParseIP : string -> bool.

(** [LoadConfig]. *)
Definition LoadConfig (path : string) : Outcome Config :=
  match loadFromFile (configPath path) with
  | Err e => Err ("failed to load config from file: " +:+ e)
  | Ok cfg =>
      match overrideFromEnv cfg with
      | (_, Some e) => Err ("failed to apply environment overrides: " +:+ e)
      | (cfg', None) =>
          match Validate ParseCIDR ParseIP cfg' with
          | Some e => Err ("configuration validation failed: " +:+ e)
          | None => Ok cfg'
          end
      end
  end.

End Loader.

End loader.

(** ** The Azure SDK, as the code sees it *)

Module armnetwork.

(** The next-hop kinds of [armnetwork.RouteNextHopType]. *)
Inductive RouteNextHopType :=
| RouteNextHopTypeInternet
| RouteNextHopTypeNone
| RouteNextHopTypeVirtualAppliance
| RouteNextHopTypeVirtualNetworkGateway
| RouteNextHopTypeVnetLocal.

#[global] Instance RouteNextHopType_eq_dec : EqDecision RouteNextHopType.
Proof. solve_decision. Defined.

(** [RoutePropertiesFormat]: the three fields are pointers that the
    code checks against nil before reading. *)
Record RoutePropertiesFormat := {
  AddressPrefix : option string;
  NextHopType : option RouteNextHopType;
  NextHopIPAddress : option string
}.

(** [Route]: [Properties] is dereferenced without a check; [Name] is never
    read by the code and is left nil in the payload it sends. *)
Record Route := {
  route_Name : option string;
  Properties : RoutePropertiesFormat
}.

#[global] Instance RoutePropertiesFormat_eq_dec : EqDecision RoutePropertiesFormat.
Proof. solve_decision. Defined.

#[global] Instance Route_eq_dec : EqDecision Route.
Proof. solve_decision. Defined.

(** [subnet.Properties.RouteTable]: a reference whose [ID] the code reads
    without a check. *)
Record RouteTable := { rt_ID : string }.

(** [Subnet]: [Name] and [Properties] are dereferenced without a check,
    [Properties.RouteTable] is compared with nil. *)
Record Subnet := {
  subnet_Name : string;
  subnet_RouteTable : option RouteTable
}.

Record VirtualNetwork := {
  vnet_ID : string;
  vnet_Name : string
}.

(** What an SDK call can fail with, as the SDK method returns it. The
    code of the repository only ever formats the text. *)
Inductive ErrorClass := Transient | Permanent.

Record ResponseError := {
  errClass : ErrorClass;
  errText : string
}.

(** A pager is the sequence of its [NextPage] results: [More] is true as
    long as the sequence is not exhausted. *)
Inductive PageResult (A : Type) :=
| PageOk (items : list A)
| PageErr (e : ResponseError).
Arguments PageOk {A} items.
Arguments PageErr {A} e.

Definition Pager (A : Type) : Type := list (PageResult A).

Inductive ClientKind :=
| VirtualNetworksClient | SubnetsClient | RouteTablesClient
| RoutesClient | VirtualNetworkPeeringsClient.

(** The credential and options held by the factory; both are opaque to
    the code of the repository. *)
Inductive TokenCredential :=
| DefaultAzureCredential
| ClientSecretCredential (tenantID clientID clientSecret : string).

Inductive ClientOptions := EmptyClientOptions.

(** The SDK as a test double over a cloud state [St]. Lists read the state,
    the one mutation the code issues may change it; every call is made on
    behalf of the subscription the client was created for. *)
Record SDK (St : Type) := {
  NewClient : ClientKind -> string -> TokenCredential -> ClientOptions -> option ResponseError;
  NewListAllPager : St -> string -> Pager VirtualNetwork;
  NewListPager_subnets : St -> string -> string -> string -> Pager Subnet;
  NewListPager_routes : St -> string -> string -> string -> Pager Route;
  BeginCreateOrUpdate :
    St -> string -> string -> string -> string -> Route -> option ResponseError * St
}.
Arguments NewClient {St} _ _ _ _ _.
Arguments NewListAllPager {St} _ _ _.
Arguments NewListPager_subnets {St} _ _ _ _ _.
Arguments NewListPager_routes {St} _ _ _ _ _.
Arguments BeginCreateOrUpdate {St} _ _ _ _ _ _ _.

End armnetwork.

(** ** [internal/azure]: the client factory *)

Module azure.
Import armnetwork.

(** [ClientFactory]: one value, held by pointer and shared by every
    enforcer and every subscription of a run. *)
Record ClientFactory := {
  cred : TokenCredential;
  clientOptions : ClientOptions;
  subscriptionID : string
}.

Definition GetCredential (f : ClientFactory) : TokenCredential := cred f.

Definition GetSubscriptionID (f : ClientFactory) : string := subscriptionID f.

(** [SetSubscriptionID] assigns the field of the shared factory. *)
Definition SetSubscriptionID (f : ClientFactory) (subscriptionID : string) : ClientFactory :=
  {| cred := cred f; clientOptions := clientOptions f; subscriptionID := subscriptionID |}.

(** A client remembers the subscription it was created for. *)
Record Client := {
  client_kind : ClientKind;
  client_subscription : string
}.

Section Clients.
Context {St : Type} (sdk : SDK St).

(** The five constructors differ in the SDK constructor they call and in
    the words of the error they wrap. *)
Definition newClient (kind : ClientKind) (what : string) (f : ClientFactory)
  : Outcome Client :=
  match NewClient sdk kind (subscriptionID f) (cred f) (clientOptions f) with
  | Some e => Err ("failed to create azure " +:+ what +:+ " client: " +:+ errText e)
  | None => Ok {| client_kind := kind; client_subscription := subscriptionID f |}
  end.

Definition NewVirtualNeworksClient := newClient VirtualNetworksClient "virtual networks".
Definition NewSubnetsClient := newClient SubnetsClient "subnets".
Definition NewRouteTablesClient := newClient RouteTablesClient "route tables".
Definition NewRoutesClient := newClient RoutesClient "routes".
Definition NewVirtualNetworkPeeringsClient :=
  newClient VirtualNetworkPeeringsClient "virtual network peerings".

End Clients.

Section NewFactory.

(** The two credential constructors of [azidentity], by the error they
    return ([None] is nil). *)
Variable NewDefaultAzureCredential : option string.
Variable NewClientSecretCredential : string -> string -> string -> option string.

(** [NewClientFactory]. *)
Definition NewClientFactory (cfg : config.AzureConfig) : Outcome ClientFactory :=
  if config.UseAzureIdentity cfg then
    match NewDefaultAzureCredential with
    | Some e => Err ("failed to create default azure credential: " +:+ e)
    | None =>
        Ok {| cred := DefaultAzureCredential;
              clientOptions := EmptyClientOptions;
              subscriptionID := config.SubscriptionID cfg |}
    end
  else
    match NewClientSecretCredential (config.TenantID cfg) (config.ClientID cfg)
            (config.ClientSecret cfg) with
    | Some e => Err ("failed to create azure client credential: " +:+ e)
    | None =>
        Ok {| cred := ClientSecretCredential (config.TenantID cfg) (config.ClientID cfg)
                        (config.ClientSecret cfg);
              clientOptions := EmptyClientOptions;
              subscriptionID := config.SubscriptionID cfg |}
    end.

End NewFactory.

End azure.

(** ** Effects: state, errors and a log of what the run did *)

Module exec.
Import armnetwork azure.

(** Everything a run can change: the shared factory and the cloud. *)
Record World (St : Type) := {
  factory : ClientFactory;
  cloud : St
}.
Arguments factory {St} _.
Arguments cloud {St} _.
Arguments Build_World {St} _ _.

(** What a run does that an observer can see: a line printed by
    [fmt.Println] and a create-or-update sent to the provider (logged when
    it is sent, whatever the provider answers). *)
Inductive Event :=
| Printed (line : string)
| CreateOrUpdate (subscription resourceGroup routeTable routeName : string)
                 (params : Route).

(** A Go function returning [error]: from a world to an outcome, the world
    it leaves and the events it produced. A failure keeps the effects that
    came before it. *)
Definition M (St A : Type) : Type := World St -> Outcome A * World St * list Event.

Section Monad.
Context {St : Type}.

Definition ret {A} (a : A) : M St A := fun w => (Ok a, w, []).

Definition fail {A} (msg : string) : M St A := fun w => (Err msg, w, []).

Definition bind {A B} (m : M St A) (k : A -> M St B) : M St B :=
  fun w =>
    match m w with
    | (Ok a, w', evs) =>
        match k a w' with
        | (o, w'', evs') => (o, w'', evs ++ evs')
        end
    | (Err msg, w', evs) => (Err msg, w', evs)
    end.

(** [fmt.Errorf(prefix + "%w", err)] around a call. *)
Definition wrapErr {A} (prefix : string) (m : M St A) : M St A :=
  fun w =>
    match m w with
    | (Err msg, w', evs) => (Err (prefix +:+ msg), w', evs)
    | r => r
    end.

Definition emit (e : Event) : M St unit := fun w => (Ok tt, w, [e]).

(** A pure Go result used as a step. *)
Definition lift {A} (o : Outcome A) : M St A := fun w => (o, w, []).

(** Reading and replacing the shared factory. *)
Definition getFactory : M St ClientFactory := fun w => (Ok (factory w), w, []).

Definition setFactory (f : ClientFactory) : M St unit :=
  fun w => (Ok tt, {| factory := f; cloud := cloud w |}, []).

(** Reading the cloud: a pager holds the pages the cloud had to give when
    the pager was created. *)
Definition readCloud {A} (f : St -> A) : M St A := fun w => (Ok (f (cloud w)), w, []).

Definition outcome {A} (r : Outcome A * World St * list Event) : Outcome A := r.1.1.
Definition final {A} (r : Outcome A * World St * list Event) : World St := r.1.2.
Definition events {A} (r : Outcome A * World St * list Event) : list Event := r.2.

(** [for _, x := range items { body }], where the body may return. *)
Fixpoint forEach {A} (body : A -> M St unit) (items : list A) : M St unit :=
  match items with
  | [] => ret tt
  | x :: rest => bind (body x) (fun _ => forEach body rest)
  end.

(** [for pager.More() { page, err := pager.NextPage(ctx); if err != nil
    { return fmt.Errorf(wrap, err) }; for _, x := range page.Value
    { body } }]. *)
Fixpoint forPages {A} (wrap : string) (body : A -> M St unit) (pager : Pager A)
  : M St unit :=
  match pager with
  | [] => ret tt
  | PageErr e :: _ => fail (wrap +:+ errText e)
  | PageOk items :: more =>
      bind (forEach body items) (fun _ => forPages wrap body more)
  end.

End Monad.

Declare Scope go_scope.
Delimit Scope go_scope with go.
Notation "x <- m ;; k" := (bind m (fun x => k))
  (at level 20, m at level 99, k at level 200, only parsing) : go_scope.
Notation "m ;;; k" := (bind m (fun _ => k))
  (at level 20, k at level 200, only parsing) : go_scope.

End exec.

(** ** [internal/controllers/routing/routing.go] *)

Module routing.
Import config armnetwork azure exec.
Open Scope go_scope.

(** A Go [map[string]string] read with [m[k]]: a missing key reads as the
    empty string. *)
Definition index (m : gmap string string) (k : string) : string :=
  default EmptyString (m !! k).

(** The loop [for i := 1; i < len(parts)-1; i += 2 { result[parts[i]] =
    parts[i+1] }], on [parts[1:]]. *)
Fixpoint pairUp (parts : list string) (result : gmap string string) : gmap string string :=
  match parts with
  | k :: v :: rest => pairUp rest (<[k := v]> result)
  | _ => result
  end.

Definition extractResourceIDParts (resourceID : string) : gmap string string :=
  pairUp (tail (gostrings.Split "/"%char resourceID)) ∅.

(** The fixed properties of the route the enforcement writes. *)
Definition defaultRouteName : string := "DefaultRoute-To-NVA".
Definition addressPrefix : string := "0.0.0.0/0".

(** Line 147: is this route the default route? *)
Definition isDefaultRoute (route : Route) : bool :=
  match AddressPrefix (Properties route) with
  | Some p => String.eqb p addressPrefix
  | None => false
  end.

(** Lines 151-152: does it point to the hub's NVA? *)
Definition pointsToNVA (hubCFG : HubVNetConfig) (route : Route) : bool :=
  match NextHopType (Properties route) with
  | Some t =>
      bool_decide (t = RouteNextHopTypeVirtualAppliance) &&
      match NextHopIPAddress (Properties route) with
      | Some ip => String.eqb ip (NVANextHop hubCFG)
      | None => false
      end
  | None => false
  end.

(** The flags [(defaultRouteExists, defaultRouteCorrect)]. *)
Definition Flags : Type := bool * bool.

(** Lines 145-160: the scan of one page. Both [break]s leave this loop
    only; the flags are never reset. *)
Fixpoint scanPage (hubCFG : HubVNetConfig) (routes : list Route) (flags : Flags) : Flags :=
  match routes with
  | [] => flags
  | route :: rest =>
      if isDefaultRoute route then
        if pointsToNVA hubCFG route then (true, true) else (true, flags.2)
      else scanPage hubCFG rest flags
  end.

(** Lines 139-161: the loop over the pages of the route pager. *)
Fixpoint scanRoutes (hubCFG : HubVNetConfig) (routePager : Pager Route) (flags : Flags)
  : Outcome Flags :=
  match routePager with
  | [] => Ok flags
  | PageErr e :: _ => Err ("failed to list routes: " +:+ errText e)
  | PageOk routes :: more => scanRoutes hubCFG more (scanPage hubCFG routes flags)
  end.

(** Lines 176-182: the payload of the create-or-update. *)
Definition routeParams (nvaNH : string) : Route :=
  {| route_Name := None;
     Properties := {| AddressPrefix := Some addressPrefix;
                      NextHopType := Some RouteNextHopTypeVirtualAppliance;
                      NextHopIPAddress := Some nvaNH |} |}.

Section Enforcer.
Context {St : Type} (sdk : SDK St).

(** [fmt.Println("WARNING: ...", name)]: the operands separated by a
    space (the line break is left out). *)
Definition Println (a b : string) : M St unit := emit (Printed (a +:+ " " +:+ b)).

(** [routesClient.BeginCreateOrUpdate(ctx, rg, rt, name, params, nil)]:
    the call is logged, the provider answers and may change the cloud.
    One event is one call of the SDK method: the requests the SDK sends
    inside it (its pipeline retries a request under the client options
    of the factory) are not events of this log, and an answer is what the
    method returns once the SDK has given up or succeeded. *)
Definition beginCreateOrUpdate (client : Client) (rg rt name : string) (params : Route)
  : M St unit :=
  fun w =>
    let ev := CreateOrUpdate (client_subscription client) rg rt name params in
    match BeginCreateOrUpdate sdk (cloud w) (client_subscription client) rg rt name params with
    | (Some e, st) => (Err (errText e), {| factory := factory w; cloud := st |}, [ev])
    | (None, st) => (Ok tt, {| factory := factory w; cloud := st |}, [ev])
    end.

(** Lines 113-190: the body of the loop over the subnets of a page.
    [ret tt] is [continue] or the end of the body, [fail] is [return]. *)
Definition enforceSubnet (hubCFG : HubVNetConfig) (subnet : Subnet) : M St unit :=
  match subnet_RouteTable subnet with
  | None => Println "WARNING: No route table found for subnet:" (subnet_Name subnet)
  | Some routeTable =>
      let rtParts := extractResourceIDParts (rt_ID routeTable) in
      let rtResourceGroup := index rtParts "resourceGroups" in
      let rtName := index rtParts "routeTables" in
      f <- getFactory ;;
      routesClient <- lift (NewRoutesClient sdk f) ;;
      routePager <- readCloud (fun st =>
        NewListPager_routes sdk st (client_subscription routesClient) rtResourceGroup rtName) ;;
      flags <- lift (scanRoutes hubCFG routePager (false, false)) ;;
      let defaultRouteExists := flags.1 in
      let defaultRouteCorrect := flags.2 in
      if negb defaultRouteExists || negb defaultRouteCorrect then
        if String.eqb (NVANextHop hubCFG) EmptyString then
          fail ("no NVA IPs defined for hub " +:+ Name hubCFG)
        else
          let nvaNH := NVANextHop hubCFG in
          wrapErr ("failed to create or update default route for subnet "
                   +:+ subnet_Name subnet +:+ ": ")
            (beginCreateOrUpdate routesClient rtResourceGroup rtName
               defaultRouteName (routeParams nvaNH))
      else ret tt
  end.

(** [enforceNVARoutingForVNet]. *)
Definition enforceNVARoutingForVNet (vnetID vnetName : string) (hubCFG : HubVNetConfig)
  : M St unit :=
  let parts := extractResourceIDParts vnetID in
  if String.eqb (index parts "resourceGroups") EmptyString then
    fail ("invalid VNet ID format: " +:+ vnetID)
  else
    let resourceGroup := index parts "resourceGroups" in
    f <- getFactory ;;
    subnetsClient <- lift (NewSubnetsClient sdk f) ;;
    pager <- readCloud (fun st =>
      NewListPager_subnets sdk st (client_subscription subnetsClient) resourceGroup vnetName) ;;
    forPages "failed to list subnets: " (enforceSubnet hubCFG) pager.

(** [enforceNVARouting]. The [subscriptionID] argument is not used by
    the body: the subscription is the one the factory holds. *)
Definition enforceNVARouting (subscriptionID : string) (hubCFG : HubVNetConfig)
  : M St unit :=
  f <- getFactory ;;
  vnetsClient <- lift (NewVirtualNeworksClient sdk f) ;;
  pager <- readCloud (fun st =>
    NewListAllPager sdk st (client_subscription vnetsClient)) ;;
  forPages "failed to list virtual networks: "
    (fun vnet => enforceNVARoutingForVNet (vnet_ID vnet) (vnet_Name vnet) hubCFG) pager.

(** [enforceSubnetIsolation] is called by [EnforceAll] but defined in a
    file that is not part of the sources at hand: it is a parameter, and
    the theorems hold whatever it does (or say what they need of it). *)
Variable enforceSubnetIsolation : string -> M St unit.

(** Lines 37-43: the first hub of that name. *)
Fixpoint findHub (hubs : list HubVNetConfig) (hubName : string) : option HubVNetConfig :=
  match hubs with
  | [] => None
  | hub :: rest => if String.eqb (Name hub) hubName then Some hub else findHub rest hubName
  end.

(** Lines 29-61: the body of the loop over the subscriptions. *)
Definition enforceSubscription (cfg : Config) (entry : string * SubscriptionConfig)
  : M St unit :=
  let subID := entry.1 in
  let subCFG := entry.2 in
  f <- getFactory ;;
  setFactory (SetSubscriptionID f subID) ;;;
  if RoutingEnforcement (Features cfg) then
    match findHub (Hubs cfg) (HubName subCFG) with
    | None =>
        fail ("hub " +:+ HubName subCFG +:+ " not found for subscription " +:+ subID)
    | Some hubCFG =>
        (if RequireNVARouting subCFG then
           wrapErr ("failed to enforce NVA routing for subscription " +:+ subID +:+ ": ")
             (enforceNVARouting subID hubCFG)
         else ret tt) ;;;
        (if SubnetToSubnetDeny subCFG then
           wrapErr ("failed to enforce subnet isolation for subscription " +:+ subID +:+ ": ")
             (enforceSubnetIsolation subID)
         else ret tt)
    end
  else ret tt.

(** [Enforcer.EnforceAll]. *)
Definition EnforceAll (cfg : Config) : M St unit :=
  forEach (enforceSubscription cfg) (Subscriptions cfg).

End Enforcer.

End routing.

(** ** The provider's route store *)

Module provider.
Import armnetwork exec.

(** The store: route tables by (subscription, resource group, table name),
    a [gmap (string * string * string) (list Route)]. *)

(** Modelled from the spec: the provider's create-or-update of a route is
    not code of this repository (it is the cloud behind the Azure SDK). Section
    4.2 asks for a create-or-update that, issued twice with the same
    payload, does nothing the second time: a route is addressed by its
    name inside its table, an existing route of that name has its
    properties replaced in place, a new name is appended. *)
Fixpoint upsert (name : string) (params : Route) (routes : list Route) : list Route :=
  match routes with
  | [] => [{| route_Name := Some name; Properties := Properties params |}]
  | r :: rest =>
      if bool_decide (route_Name r = Some name)
      then {| route_Name := Some name; Properties := Properties params |} :: rest
      else r :: upsert name params rest
  end.

(** Modelled from the spec: applying one logged create-or-update to the
    store (the provider side of section 4.2); a table that does not exist
    is not created, a printed line changes nothing. *)
Definition applyEvent (ev : Event) (store : gmap (string * string * string) (list Route))
  : gmap (string * string * string) (list Route) :=
  match ev with
  | Printed _ => store
  | CreateOrUpdate sub rg rt name params =>
      match store !! (sub, rg, rt) with
      | Some routes => <[(sub, rg, rt) := upsert name params routes]> store
      | None => store
      end
  end.

(** Applying the actions of a run in the order they were issued. *)
Definition applyAll (evs : list Event) (store : gmap (string * string * string) (list Route))
  : gmap (string * string * string) (list Route) :=
  foldl (fun st ev => applyEvent ev st) store evs.

End provider.

(** ** Test doubles *)

Module double.
Import config armnetwork azure exec routing provider.

(** A provider with fixed listings: the virtual networks of every
    subscription, the subnets by network name, the routes by table name,
    and one answer to every create-or-update. Clients are always created. *)
Definition static (vnets : Pager VirtualNetwork) (subnets : string -> Pager Subnet)
    (routes : string -> Pager Route) (answer : option ResponseError) : SDK unit :=
  {| NewClient := fun _ _ _ _ => None;
     NewListAllPager := fun _ _ => vnets;
     NewListPager_subnets := fun _ _ _ vnetName => subnets vnetName;
     NewListPager_routes := fun _ _ _ rtName => routes rtName;
     BeginCreateOrUpdate := fun st _ _ _ _ _ => (answer, st) |}.

(** A provider over the route store: each table is listed in one page,
    a create-or-update of a missing table is answered with an error. *)
Definition stored (vnets : Pager VirtualNetwork) (subnets : string -> Pager Subnet)
  : SDK (gmap (string * string * string) (list Route)) :=
  {| NewClient := fun _ _ _ _ => None;
     NewListAllPager := fun _ _ => vnets;
     NewListPager_subnets := fun _ _ _ vnetName => subnets vnetName;
     NewListPager_routes := fun st sub rg rt =>
       match st !! (sub, rg, rt) with
       | Some routes => [PageOk routes]
       | None => [PageErr {| errClass := Permanent; errText := "ResourceNotFound" |}]
       end;
     BeginCreateOrUpdate := fun st sub rg rt name params =>
       match st !! (sub, rg, rt) with
       | Some _ => (None, applyEvent (CreateOrUpdate sub rg rt name params) st)
       | None => (Some {| errClass := Permanent; errText := "ParentResourceNotFound" |}, st)
       end |}.

(** No subnet isolation pass. *)
Definition noIsolation {St : Type} : string -> M St unit := fun _ => ret tt.

(** Stand-ins for Go's [net.ParseCIDR] and [net.ParseIP] that accept the
    literals used below and nothing else. *)
Definition parseCIDR (s : string) : bool := bool_decide (s ∈ ["10.0.0.0/16"; "10.1.0.0/16"]).
Definition parseIP (s : string) : bool := bool_decide (s ∈ ["10.0.0.4"; "10.0.0.5"]).

Definition factory0 : ClientFactory :=
  {| cred := DefaultAzureCredential;
     clientOptions := EmptyClientOptions;
     subscriptionID := "sub-0" |}.

Definition world0 : World unit := {| factory := factory0; cloud := tt |}.

Definition hubA : HubVNetConfig :=
  {| VNetID := "/subscriptions/hub/resourceGroups/hub-rg/providers/Microsoft.Network/virtualNetworks/hub-a";
     ResourceGroup := "hub-rg";
     Name := "hub-a";
     NVANextHop := "10.0.0.4" |}.

(** A hub whose NVA address was left out of the configuration. *)
Definition hubNoNVA : HubVNetConfig :=
  {| VNetID := VNetID hubA; ResourceGroup := "hub-rg"; Name := "hub-a";
     NVANextHop := EmptyString |}.

Definition route (name prefix : string) (t : RouteNextHopType) (ip : option string) : Route :=
  {| route_Name := Some name;
     Properties := {| AddressPrefix := Some prefix;
                      NextHopType := Some t;
                      NextHopIPAddress := ip |} |}.

(** A default route to the NVA of [hubA], one to the internet, and a
    route that is not a default route. *)
Definition toNVA : Route :=
  route "to-nva" "0.0.0.0/0" RouteNextHopTypeVirtualAppliance (Some "10.0.0.4").
Definition toInternet : Route :=
  route "to-internet" "0.0.0.0/0" RouteNextHopTypeInternet None.
Definition local : Route :=
  route "local" "10.0.0.0/16" RouteNextHopTypeVnetLocal None.

Definition rtID : string :=
  "/subscriptions/sub-a/resourceGroups/rg1/providers/Microsoft.Network/routeTables/rt1".

Definition vnet1 : VirtualNetwork :=
  {| vnet_ID := "/subscriptions/sub-a/resourceGroups/rg1/providers/Microsoft.Network/virtualNetworks/vnet1";
     vnet_Name := "vnet1" |}.

Definition routed : Subnet :=
  {| subnet_Name := "workload"; subnet_RouteTable := Some {| rt_ID := rtID |} |}.

Definition unrouted : Subnet :=
  {| subnet_Name := "GatewaySubnet"; subnet_RouteTable := None |}.

Definition throttled : ResponseError :=
  {| errClass := Transient; errText := "429 Too Many Requests" |}.

Definition subscription (hubName : string) : SubscriptionConfig :=
  {| AllowedCIDRs := ["10.0.0.0/16"];
     HubName := hubName;
     RequireHubPeering := false;
     RequireNVARouting := true;
     SubnetToSubnetDeny := false |}.

Definition configOf (hubs : list HubVNetConfig) (subs : list (string * SubscriptionConfig))
  : Config :=
  {| Azure := {| SubscriptionID := "sub-0"; TenantID := "tenant"; ClientID := "client";
                 ClientSecret := "secret"; UseAzureIdentity := true |};
     Hubs := hubs;
     Subscriptions := subs;
     Features := {| IPAMEnforcement := false; RoutingEnforcement := true;
                    PeeringEnforcement := false; ComplianceScanning := false;
                    AutoRemediation := false |};
     API := {| ListenAddress := "127.0.0.1"; Port := 8080; TLSEnabled := false;
               TLSCertPath := EmptyString; TLSKeyPath := EmptyString |};
     Logging := {| Level := "info"; Format := "json"; OutputPath := "stdout" |} |}.

(** One network with an unrouted and a routed subnet; every route table
    lists [routes], every create-or-update is answered with [answer]. *)
Definition cloudWith (routes : Pager Route) (answer : option ResponseError) : SDK unit :=
  static [PageOk [vnet1]] (fun _ => [PageOk [unrouted; routed]]) (fun _ => routes) answer.

(** The create-or-update the enforcement sends for [routed] under [hubA]
    when the factory is bound to subscription [sub]. *)
Definition remediation (sub : string) : Event :=
  CreateOrUpdate sub "rg1" "rt1" "DefaultRoute-To-NVA"
    {| route_Name := None;
       Properties := {| AddressPrefix := Some "0.0.0.0/0";
                        NextHopType := Some RouteNextHopTypeVirtualAppliance;
                        NextHopIPAddress := Some "10.0.0.4" |} |}.

Definition warning : Event :=
  Printed "WARNING: No route table found for subnet: GatewaySubnet".

(** The scenario of section 8 of the specification: scope [sub-a], hub NVA
    [10.0.0.4], one network whose subnet has an empty route table. *)
Definition scenarioSDK : SDK (gmap (string * string * string) (list Route)) :=
  stored [PageOk [vnet1]] (fun _ => [PageOk [routed]]).

Definition scenarioConfig : Config := configOf [hubA] [("sub-a", subscription "hub-a")].

Definition scenarioWorld : World (gmap (string * string * string) (list Route)) :=
  {| factory := factory0; cloud := {[ ("sub-a", "rg1", "rt1") := [] ]} |}.

End double.

(** ** Vocabulary of the specification *)

Module spec.
Import config armnetwork azure exec routing.

(** The first route of a sequence whose prefix is [0.0.0.0/0]. *)
Fixpoint firstDefault (routes : list Route) : option Route :=
  match routes with
  | [] => None
  | route :: rest => if isDefaultRoute route then Some route else firstDefault rest
  end.

(** A compliant default route: prefix [0.0.0.0/0], next hop a virtual
    appliance, at the NVA address of the hub. *)
Definition compliant (hubCFG : HubVNetConfig) (r : Route) : Prop :=
  AddressPrefix (Properties r) = Some "0.0.0.0/0" ∧
  NextHopType (Properties r) = Some RouteNextHopTypeVirtualAppliance ∧
  NextHopIPAddress (Properties r) = Some (NVANextHop hubCFG).

(** The coordinates of a subnet's route table, as the code reads them from
    the table's resource ID. *)
Definition tableGroup (rt : RouteTable) : string :=
  index (extractResourceIDParts (rt_ID rt)) "resourceGroups".

Definition tableName (rt : RouteTable) : string :=
  index (extractResourceIDParts (rt_ID rt)) "routeTables".

(** The SDK creates a client of this kind for the factory as it stands. *)
Definition clientAvailable {St : Type} (sdk : SDK St) (kind : ClientKind) (w : World St)
  : Prop :=
  NewClient sdk kind (subscriptionID (factory w)) (cred (factory w))
    (clientOptions (factory w)) = None.

(** The route listing the code obtains for a table in a given world. *)
Definition routesOf {St : Type} (sdk : SDK St) (w : World St) (rt : RouteTable)
  : Pager Route :=
  NewListPager_routes sdk (cloud w) (subscriptionID (factory w))
    (tableGroup rt) (tableName rt).

(** The remediation decision of line 165. *)
Definition needsRemediation (flags : Flags) : bool := negb flags.1 || negb flags.2.

(** An event that is either a printed line or the create-or-update of the
    reserved route with the hub's full payload. *)
Definition fullPayload (hubCFG : HubVNetConfig) (ev : Event) : Prop :=
  match ev with
  | Printed _ => True
  | CreateOrUpdate _ _ _ name params =>
      name = defaultRouteName ∧ params = routeParams (NVANextHop hubCFG)
  end.

(** A computation that leaves the shared factory as it found it and whose
    events all satisfy [Q]. *)
Definition framed {St A : Type} (Q : Event → Prop) (m : M St A) : Prop :=
  ∀ w, factory (final (m w)) = factory w ∧ Forall Q (events (m w)).

(** An event is settled in a store that applying it does not change. *)
Definition settled (ev : Event) (store : gmap (string * string * string) (list Route)) : Prop :=
  provider.applyEvent ev store = store.

End spec.

(** ** Vocabulary of the further properties *)

Module props.
Import config armnetwork azure exec routing.

(** A segment of a resource ID: a string without a slash. *)
Fixpoint noSlash (s : string) : bool :=
  match s with
  | EmptyString => true
  | String c rest => negb (Ascii.eqb c "/"%char) && noSlash rest
  end.

(** The resource ID written from its (kind, name) pairs:
    [/kind1/name1/kind2/name2...]. *)
Fixpoint resourceID (pairs : list (string * string)) : string :=
  match pairs with
  | [] => EmptyString
  | (k, v) :: rest => "/" +:+ k +:+ "/" +:+ v +:+ resourceID rest
  end.

Definition isCall (ev : Event) : bool :=
  match ev with
  | CreateOrUpdate _ _ _ _ _ => true
  | Printed _ => false
  end.

(** The number of create-or-updates in a log. *)
Definition calls (evs : list Event) : nat := length (filter (fun ev => isCall ev = true) evs).

Definition hasTable (subnet : Subnet) : bool :=
  match subnet_RouteTable subnet with
  | Some _ => true
  | None => false
  end.

(** The number of subnets with a route table on the pages of a pager
    that arrive. *)
Fixpoint routedIn (pager : Pager Subnet) : nat :=
  match pager with
  | [] => 0
  | PageOk items :: more => length (filter (fun s => hasTable s = true) items) + routedIn more
  | PageErr _ :: more => routedIn more
  end.

(** A create-or-update sent on behalf of subscription [sub] (a printed
    line is sent on behalf of none). *)
Definition sentFor (sub : string) (ev : Event) : Prop :=
  match ev with
  | CreateOrUpdate s _ _ _ _ => s = sub
  | Printed _ => True
  end.

(** A relation between the world before, the world after and the log
    holds of every run of a computation. *)
Definition always {St A : Type} (R : World St → World St → list Event → Prop) (m : M St A)
  : Prop :=
  ∀ w, R w (final (m w)) (events (m w)).

(** Without a create-or-update in the log, the cloud is as it was. *)
Definition readOnly {St : Type} (w w' : World St) (evs : list Event) : Prop :=
  calls evs = 0 → cloud w' = cloud w.

(** Started with the factory bound to [sub], the run leaves it bound to
    [sub] and sends on behalf of [sub] only. *)
Definition boundTo {St : Type} (sub : string) (w w' : World St) (evs : list Event) : Prop :=
  subscriptionID (factory w) = sub →
  subscriptionID (factory w') = sub ∧ Forall (sentFor sub) evs.

(** The factory after a run over the subscriptions: bound to the last
    one visited. *)
Definition reboundTo (f : ClientFactory) (subs : list (string * SubscriptionConfig))
  : ClientFactory :=
  match last subs with
  | Some entry => SetSubscriptionID f entry.1
  | None => f
  end.

End props.

(** ** Stand-ins for the loader's environment *)

Module fixture.
Import config.

(** An environment that sets the subscription, turns routing enforcement
    off with the value [1], and sets the port. *)
Definition getenv (k : string) : string :=
  if String.eqb k "VELORA_AZURE_SUBSCRIPTION_ID" then "sub-env"
  else if String.eqb k "VELORA_FEATURE_ROUTING_ENFORCEMENT" then "1"
  else if String.eqb k "VELORA_API_PORT" then "8443"
  else EmptyString.

(** The same environment with an explicit [VELORA_CONFIG]. *)
Definition getenvWithConfig (k : string) : string :=
  if String.eqb k "VELORA_CONFIG" then "/etc/velora.json" else getenv k.

(** The same environment with a port that is no number. *)
Definition getenvBadPort (k : string) : string :=
  if String.eqb k "VELORA_API_PORT" then "https" else getenv k.

Definition noenv (k : string) : string := EmptyString.

(** The file system holds one file, and its text decodes to [cfg]. *)
Definition readFile (path : string) : Outcome string :=
  if String.eqb path "velora.json" then Ok "{...}"
  else Err ("open " +:+ path +:+ ": no such file or directory").

Definition unmarshal (cfg : Config) (data : string) : Outcome Config :=
  if String.eqb data "{...}" then Ok cfg else Err "unexpected end of JSON input".

(** [strings.ToLower] and [strconv.Atoi] on the values used here. *)
Definition toLower (s : string) : string :=
  if String.eqb s "TRUE" then "true" else if String.eqb s "True" then "true" else s.

Definition atoi (s : string) : option Z :=
  if String.eqb s "8443" then Some 8443%Z else if String.eqb s "8080" then Some 8080%Z else None.

Definition credentialOk : option string := None.
Definition secretOk (tenantID clientID clientSecret : string) : option string := None.

End fixture.

Import config armnetwork azure exec routing provider spec.

(** * Facts about the embedding *)

(** ** Strings *)

Lemma append_assoc (a b c : string) : (a +:+ b) +:+ c = a +:+ (b +:+ c).
Proof.
  induction a as [|ch a IH]; [done|].
  change (String ch ((a +:+ b) +:+ c) = String ch (a +:+ (b +:+ c))). by f_equal.
Qed.

(** ** Sequencing and loops *)

Section Loops.
Context {St : Type}.

Lemma bind_assoc {A B C} (m : M St A) (k : A → M St B) (k' : B → M St C) w :
  bind (bind m k) k' w = bind m (fun a => bind (k a) k') w.
Proof.
  unfold bind. destruct (m w) as [[[a|msg] w1] evs1]; [|done].
  destruct (k a w1) as [[[b|msg] w2] evs2]; [|done].
  destruct (k' b w2) as [[o w3] evs3]. by rewrite app_assoc.
Qed.

Lemma bind_ext {A B} (m : M St A) (k k' : A → M St B) w :
  (∀ a w1, k a w1 = k' a w1) → bind m k w = bind m k' w.
Proof.
  intros Hk. unfold bind. destruct (m w) as [[[a|msg] w1] evs1]; [|done].
  by rewrite Hk.
Qed.

Lemma forEach_app {A} (body : A → M St unit) before after w :
  forEach body (before ++ after) w =
    bind (forEach body before) (fun _ => forEach body after) w.
Proof.
  revert w. induction before as [|x before IH]; intros w; simpl.
  - unfold bind, ret. by destruct (forEach body after w) as [[o w'] evs].
  - rewrite bind_assoc. apply bind_ext. intros _ w1. apply IH.
Qed.

(** The loop stops at the first element whose body returns an error:
    what follows it is never looked at. *)
Lemma forEach_abort {A} (body : A → M St unit) before x after w w1 evs1 msg w2 evs2 :
  forEach body before w = (Ok tt, w1, evs1) →
  body x w1 = (Err msg, w2, evs2) →
  forEach body (before ++ x :: after) w = (Err msg, w2, evs1 ++ evs2).
Proof.
  intros Hbefore Hx. rewrite forEach_app. unfold bind. rewrite Hbefore. simpl.
  unfold bind. by rewrite Hx.
Qed.

(** An element whose body succeeds hands the world on to the rest. *)
Lemma forEach_step {A} (body : A → M St unit) before x after w w1 evs1 w2 evs2 :
  forEach body before w = (Ok tt, w1, evs1) →
  body x w1 = (Ok tt, w2, evs2) →
  forEach body (before ++ x :: after) w =
    (outcome (forEach body after w2), final (forEach body after w2),
     evs1 ++ evs2 ++ events (forEach body after w2)).
Proof.
  intros Hbefore Hx. rewrite forEach_app. unfold bind. rewrite Hbefore. simpl.
  unfold bind. rewrite Hx.
  by destruct (forEach body after w2) as [[o w3] evs3].
Qed.

End Loops.

(** ** Frames: the factory is kept, the events are of one kind *)

Section Frames.
Context {St : Type}.
Variable Q : Event → Prop.

Lemma framed_ret {A} (a : A) : framed (St := St) Q (ret a).
Proof. intros w. by split. Qed.

Lemma framed_fail {A} msg : framed (St := St) (A := A) Q (fail msg).
Proof. intros w. by split. Qed.

Lemma framed_lift {A} (o : Outcome A) : framed (St := St) Q (lift o).
Proof. intros w. by split. Qed.

Lemma framed_getFactory : framed (St := St) Q getFactory.
Proof. intros w. by split. Qed.

Lemma framed_readCloud {A} (f : St → A) : framed Q (readCloud f).
Proof. intros w. by split. Qed.

Lemma framed_emit ev : Q ev → framed (St := St) Q (emit ev).
Proof. intros Hev w. split; [done|]. by repeat constructor. Qed.

Lemma framed_bind {A B} (m : M St A) (k : A → M St B) :
  framed Q m → (∀ a, framed Q (k a)) → framed Q (bind m k).
Proof.
  intros Hm Hk w. pose proof (Hm w) as [Hf1 He1]. unfold bind.
  destruct (m w) as [[[a|msg] w1] evs1]; [|by split].
  pose proof (Hk a w1) as [Hf2 He2].
  destruct (k a w1) as [[o w2] evs2].
  unfold final, events in *; simpl in *.
  split; [congruence | by apply Forall_app].
Qed.

Lemma framed_wrapErr {A} prefix (m : M St A) : framed Q m → framed Q (wrapErr prefix m).
Proof.
  intros Hm w. specialize (Hm w). unfold wrapErr.
  by destruct (m w) as [[[a|msg] w1] evs1].
Qed.

Lemma framed_forEach {A} (body : A → M St unit) items :
  (∀ x, framed Q (body x)) → framed Q (forEach body items).
Proof.
  intros Hbody. induction items as [|x items IH]; simpl.
  - apply framed_ret.
  - apply framed_bind; [apply Hbody | intros _; exact IH].
Qed.

Lemma framed_forPages {A} wrap (body : A → M St unit) pager :
  (∀ x, framed Q (body x)) → framed Q (forPages wrap body pager).
Proof.
  intros Hbody. induction pager as [|[items|e] pager IH]; simpl.
  - apply framed_ret.
  - apply framed_bind; [by apply framed_forEach | intros _; exact IH].
  - apply framed_fail.
Qed.

End Frames.

(** ** The scan of a route listing *)

Lemma isDefaultRoute_true r :
  isDefaultRoute r = true ↔ AddressPrefix (Properties r) = Some "0.0.0.0/0".
Proof.
  unfold isDefaultRoute, addressPrefix.
  destruct (AddressPrefix (Properties r)) as [p|]; [|done].
  rewrite String.eqb_eq. split; congruence.
Qed.

Lemma pointsToNVA_true hubCFG r :
  pointsToNVA hubCFG r = true ↔
    NextHopType (Properties r) = Some RouteNextHopTypeVirtualAppliance ∧
    NextHopIPAddress (Properties r) = Some (NVANextHop hubCFG).
Proof.
  unfold pointsToNVA.
  destruct (NextHopType (Properties r)) as [t|]; [|by split; [|intros [? _]]].
  destruct (NextHopIPAddress (Properties r)) as [ip|].
  - rewrite andb_true_iff, bool_decide_eq_true, String.eqb_eq.
    split; intros [H1 H2]; split; congruence.
  - rewrite andb_false_r. by split; [|intros [_ ?]].
Qed.

Lemma compliant_iff hubCFG r :
  compliant hubCFG r ↔ isDefaultRoute r = true ∧ pointsToNVA hubCFG r = true.
Proof. unfold compliant. rewrite isDefaultRoute_true, pointsToNVA_true. tauto. Qed.

Lemma firstDefault_Some routes r :
  firstDefault routes = Some r → r ∈ routes ∧ isDefaultRoute r = true.
Proof.
  induction routes as [|x rest IH]; simpl; [done|].
  destruct (isDefaultRoute x) eqn:Hx.
  - intros [= ->]. split; [constructor | done].
  - intros H. destruct (IH H). split; [by constructor | done].
Qed.

Lemma firstDefault_app a b :
  firstDefault (a ++ b) =
    match firstDefault a with Some r => Some r | None => firstDefault b end.
Proof.
  induction a as [|x a IH]; simpl; [done|]. by destruct (isDefaultRoute x).
Qed.

Lemma first_not_compliant hubCFG routes r :
  firstDefault routes = Some r → ¬ compliant hubCFG r → pointsToNVA hubCFG r = false.
Proof.
  intros Hf Hn. apply firstDefault_Some in Hf as [_ Hd].
  destruct (pointsToNVA hubCFG r) eqn:Hp; [|done].
  exfalso. apply Hn. by apply compliant_iff.
Qed.

Section ScanFacts.
Variable hubCFG : HubVNetConfig.

(** One page moves the flags by its first default route only. *)
Lemma scanPage_firstDefault routes flags :
  scanPage hubCFG routes flags =
    match firstDefault routes with
    | Some r => (true, pointsToNVA hubCFG r || flags.2)
    | None => flags
    end.
Proof.
  induction routes as [|route rest IH]; simpl; [done|].
  destruct (isDefaultRoute route); [|exact IH].
  by destruct (pointsToNVA hubCFG route).
Qed.

Lemma scanRoutes_settled pages :
  scanRoutes hubCFG (PageOk <$> pages) (true, true) = Ok (true, true).
Proof.
  induction pages as [|p pages IH]; simpl; [done|].
  rewrite scanPage_firstDefault. destruct (firstDefault p); simpl; [|exact IH].
  by rewrite orb_true_r.
Qed.

Lemma scanRoutes_first_compliant pages r flags :
  firstDefault (concat pages) = Some r →
  pointsToNVA hubCFG r = true →
  scanRoutes hubCFG (PageOk <$> pages) flags = Ok (true, true).
Proof.
  revert flags. induction pages as [|p pages IH]; intros flags Hfirst Hr; [done|].
  simpl in *. rewrite firstDefault_app in Hfirst. rewrite scanPage_firstDefault.
  destruct (firstDefault p) as [r'|].
  - injection Hfirst as ->. rewrite Hr. simpl. apply scanRoutes_settled.
  - by apply IH.
Qed.

Lemma scanRoutes_none_compliant pages flags :
  (∀ page r, page ∈ pages → firstDefault page = Some r → pointsToNVA hubCFG r = false) →
  ∃ found, scanRoutes hubCFG (PageOk <$> pages) flags = Ok (found, flags.2).
Proof.
  revert flags. induction pages as [|p pages IH]; intros flags Hall; simpl.
  - exists flags.1. by destruct flags.
  - rewrite scanPage_firstDefault.
    destruct (firstDefault p) as [r|] eqn:Hp.
    + rewrite (Hall p r) by (done || constructor). simpl.
      destruct (IH (true, flags.2)) as [found Hfound].
      { intros page r' Hin. apply Hall. by constructor. }
      exists found. exact Hfound.
    + apply IH. intros page r' Hin. apply Hall. by constructor.
Qed.

(** Within one page nothing after the first default route is read. *)
Lemma scanPage_first_wins before r after flags :
  firstDefault before = None →
  isDefaultRoute r = true →
  scanPage hubCFG (before ++ r :: after) flags = (true, pointsToNVA hubCFG r || flags.2).
Proof.
  intros Hbefore Hr. rewrite scanPage_firstDefault, firstDefault_app, Hbefore.
  simpl. by rewrite Hr.
Qed.

End ScanFacts.

(** The flags after a listing that completes: a default route was found
    if some page has one, and it counts as correct if the first default
    route of some page is compliant. *)
Lemma scanRoutes_pages (hubCFG : HubVNetConfig) (pages : list (list Route)) (flags : Flags) :
  scanRoutes hubCFG (PageOk <$> pages) flags =
    Ok (flags.1 || existsb (fun page => bool_decide (is_Some (firstDefault page))) pages,
        flags.2 || existsb (fun page =>
                     match firstDefault page with
                     | Some r => pointsToNVA hubCFG r
                     | None => false
                     end) pages).
Proof.
  revert flags. induction pages as [|page pages IH]; intros [found correct]; simpl.
  - by rewrite !orb_false_r.
  - rewrite IH, scanPage_firstDefault.
    destruct (firstDefault page) as [r|]; simpl.
    + rewrite orb_true_r. f_equal. f_equal.
      rewrite orb_assoc. f_equal. apply orb_comm.
    + done.
Qed.

(** ** The body of the subnet loop *)

Section SubnetFacts.
Context {St : Type} (sdk : SDK St).

Lemma enforceSubnet_unrouted hubCFG subnet w :
  subnet_RouteTable subnet = None →
  enforceSubnet sdk hubCFG subnet w =
    (Ok tt, w,
     [Printed ("WARNING: No route table found for subnet: " +:+ subnet_Name subnet)]).
Proof. intros Hrt. unfold enforceSubnet. by rewrite Hrt. Qed.

(** With a route table and a routes client, the body is its scan
    followed by the decision of line 165. *)
Lemma enforceSubnet_routed hubCFG subnet rt w :
  subnet_RouteTable subnet = Some rt →
  clientAvailable sdk RoutesClient w →
  enforceSubnet sdk hubCFG subnet w =
    match scanRoutes hubCFG (routesOf sdk w rt) (false, false) with
    | Err msg => (Err msg, w, [])
    | Ok flags =>
        if needsRemediation flags then
          if String.eqb (NVANextHop hubCFG) EmptyString then
            (Err ("no NVA IPs defined for hub " +:+ Name hubCFG), w, [])
          else
            wrapErr ("failed to create or update default route for subnet "
                     +:+ subnet_Name subnet +:+ ": ")
              (beginCreateOrUpdate sdk
                 {| client_kind := RoutesClient;
                    client_subscription := subscriptionID (factory w) |}
                 (tableGroup rt) (tableName rt) defaultRouteName
                 (routeParams (NVANextHop hubCFG))) w
        else (Ok tt, w, [])
    end.
Proof.
  intros Hrt Hclient. unfold enforceSubnet. rewrite Hrt.
  unfold bind, getFactory, lift, readCloud, NewRoutesClient, newClient.
  unfold clientAvailable in Hclient. rewrite Hclient. simpl.
  fold (tableGroup rt) (tableName rt). unfold routesOf, needsRemediation.
  destruct (scanRoutes hubCFG _ (false, false)) as [flags|msg]; [|done].
  destruct (negb flags.1 || negb flags.2); [|done].
  destruct (String.eqb (NVANextHop hubCFG) EmptyString); [done|].
  by destruct (wrapErr _ _ w) as [[o w'] evs].
Qed.

(** The one call: logged once, its error (of whatever class) wrapped and
    returned, the cloud left as the provider left it. *)
Lemma createOrUpdate_once prefix client rg rt name params w :
  wrapErr prefix (beginCreateOrUpdate sdk client rg rt name params) w =
    let answer :=
      BeginCreateOrUpdate sdk (cloud w) (client_subscription client) rg rt name params in
    (match answer.1 with
     | Some e => Err (prefix +:+ errText e)
     | None => Ok tt
     end,
     {| factory := factory w; cloud := answer.2 |},
     [CreateOrUpdate (client_subscription client) rg rt name params]).
Proof.
  unfold wrapErr, beginCreateOrUpdate.
  by destruct (BeginCreateOrUpdate sdk _ _ _ _ _ _) as [[e|] st].
Qed.

Lemma framed_beginCreateOrUpdate hubCFG client rg rt :
  framed (fullPayload hubCFG)
    (beginCreateOrUpdate sdk client rg rt defaultRouteName (routeParams (NVANextHop hubCFG))).
Proof.
  intros w. unfold beginCreateOrUpdate.
  destruct (BeginCreateOrUpdate sdk _ _ _ _ _ _) as [[e|] st];
    (split; [done|]); by repeat constructor.
Qed.

Lemma framed_enforceSubnet hubCFG subnet :
  framed (fullPayload hubCFG) (enforceSubnet sdk hubCFG subnet).
Proof.
  unfold enforceSubnet. destruct (subnet_RouteTable subnet) as [rt|].
  - apply framed_bind; [apply framed_getFactory|]. intros f.
    apply framed_bind; [apply framed_lift|]. intros client.
    apply framed_bind; [apply framed_readCloud|]. intros pager.
    apply framed_bind; [apply framed_lift|]. intros flags.
    destruct (negb flags.1 || negb flags.2); [|apply framed_ret].
    destruct (String.eqb (NVANextHop hubCFG) EmptyString); [apply framed_fail|].
    apply framed_wrapErr, framed_beginCreateOrUpdate.
  - by apply framed_emit.
Qed.

Lemma framed_enforceNVARoutingForVNet vnetID vnetName hubCFG :
  framed (fullPayload hubCFG) (enforceNVARoutingForVNet sdk vnetID vnetName hubCFG).
Proof.
  unfold enforceNVARoutingForVNet.
  destruct (String.eqb _ EmptyString); [apply framed_fail|].
  apply framed_bind; [apply framed_getFactory|]. intros f.
  apply framed_bind; [apply framed_lift|]. intros client.
  apply framed_bind; [apply framed_readCloud|]. intros pager.
  apply framed_forPages. intros subnet. apply framed_enforceSubnet.
Qed.

Lemma framed_enforceNVARouting subID hubCFG :
  framed (fullPayload hubCFG) (enforceNVARouting sdk subID hubCFG).
Proof.
  unfold enforceNVARouting.
  apply framed_bind; [apply framed_getFactory|]. intros f.
  apply framed_bind; [apply framed_lift|]. intros client.
  apply framed_bind; [apply framed_readCloud|]. intros pager.
  apply framed_forPages. intros vnet. apply framed_enforceNVARoutingForVNet.
Qed.

End SubnetFacts.

(** ** The loop over the subnets of a network *)

Section VNetFacts.
Context {St : Type} (sdk : SDK St).

(** A pager whose pages all arrive is a loop over their items in order. *)
Lemma forPages_ok {A} wrap (body : A → M St unit) (pages : list (list A)) w :
  forPages wrap body (PageOk <$> pages) w = forEach body (concat pages) w.
Proof.
  revert w. induction pages as [|page pages IH]; intros w; simpl; [done|].
  rewrite forEach_app. apply bind_ext. intros _ w1. apply IH.
Qed.

(** A network whose ID names a resource group and whose subnets are all
    listed: the function is the subnet loop body run over the subnets in
    order. *)
Lemma enforceNVARoutingForVNet_subnets vnetID vnetName hubCFG
    (pages : list (list Subnet)) w :
  index (extractResourceIDParts vnetID) "resourceGroups" ≠ EmptyString →
  clientAvailable sdk SubnetsClient w →
  NewListPager_subnets sdk (cloud w) (subscriptionID (factory w))
    (index (extractResourceIDParts vnetID) "resourceGroups") vnetName = PageOk <$> pages →
  enforceNVARoutingForVNet sdk vnetID vnetName hubCFG w =
    forEach (enforceSubnet sdk hubCFG) (concat pages) w.
Proof.
  intros Hrg Hclient Hpages. unfold enforceNVARoutingForVNet.
  apply String.eqb_neq in Hrg. rewrite Hrg.
  unfold bind at 1, getFactory. unfold bind at 1, lift, NewSubnetsClient, newClient.
  unfold clientAvailable in Hclient. rewrite Hclient.
  unfold bind at 1, readCloud. simpl. rewrite Hpages, forPages_ok.
  by destruct (forEach _ _ w) as [[o w'] evs].
Qed.

End VNetFacts.

(** ** The route store *)

Lemma upsert_upsert name params routes :
  upsert name params (upsert name params routes) = upsert name params routes.
Proof.
  induction routes as [|r rest IH]; simpl.
  - by rewrite bool_decide_eq_true_2.
  - destruct (bool_decide (route_Name r = Some name)) eqn:Hr; simpl.
    + by rewrite bool_decide_eq_true_2.
    + by rewrite Hr, IH.
Qed.

Lemma apply_settles (ev : Event) (store : gmap (string * string * string) (list Route)) :
  settled ev (applyEvent ev store).
Proof.
  unfold settled. destruct ev as [line|sub rg rt name params]; simpl; [done|].
  destruct (store !! (sub, rg, rt)) as [routes|] eqn:Hk; simpl.
  - rewrite lookup_insert_eq, upsert_upsert. apply insert_insert_eq.
  - by rewrite Hk.
Qed.

Lemma settled_apply (hubCFG : HubVNetConfig) (ev ev' : Event)
    (store : gmap (string * string * string) (list Route)) :
  fullPayload hubCFG ev → fullPayload hubCFG ev' →
  settled ev store → settled ev (applyEvent ev' store).
Proof.
  unfold settled.
  destruct ev as [line|sub rg rt name params]; [done|].
  destruct ev' as [line|sub' rg' rt' name' params']; [done|].
  intros [-> ->] [-> ->] Hs. simpl in *.
  destruct (decide ((sub', rg', rt') = (sub, rg, rt))) as [[= -> -> ->]|Hne].
  - destruct (store !! (sub, rg, rt)) as [routes|] eqn:Hk; [|by rewrite Hk].
    rewrite Hs at 1. rewrite Hk. congruence.
  - destruct (store !! (sub', rg', rt')) as [routes'|] eqn:Hk'; [|exact Hs].
    rewrite lookup_insert_ne by done.
    destruct (store !! (sub, rg, rt)) as [routes|] eqn:Hk; [|done].
    assert (upsert defaultRouteName (routeParams (NVANextHop hubCFG)) routes = routes) as ->.
    { apply (f_equal (fun m => m !! (sub, rg, rt))) in Hs.
      rewrite lookup_insert_eq, Hk in Hs. congruence. }
    apply insert_id. by rewrite lookup_insert_ne.
Qed.

Lemma settled_applyAll (hubCFG : HubVNetConfig) (ev : Event) (evs : list Event)
    (store : gmap (string * string * string) (list Route)) :
  fullPayload hubCFG ev → Forall (fullPayload hubCFG) evs →
  settled ev store → settled ev (applyAll evs store).
Proof.
  intros Hev Hevs. revert store.
  induction Hevs as [|ev' evs Hev' _ IH]; intros store Hs; [done|].
  simpl. apply IH. by eapply settled_apply.
Qed.

Lemma applyAll_settles (hubCFG : HubVNetConfig) (evs : list Event)
    (store : gmap (string * string * string) (list Route)) (ev : Event) :
  Forall (fullPayload hubCFG) evs → ev ∈ evs → settled ev (applyAll evs store).
Proof.
  intros Hevs. revert store.
  induction Hevs as [|ev' evs Hev' Hevs IH]; intros store Hin.
  - by apply elem_of_nil in Hin.
  - simpl. apply elem_of_cons in Hin as [->|Hin].
    + eapply settled_applyAll; eauto. apply apply_settles.
    + by apply IH.
Qed.

Lemma applyAll_settled (evs : list Event)
    (store : gmap (string * string * string) (list Route)) :
  (∀ ev, ev ∈ evs → settled ev store) → applyAll evs store = store.
Proof.
  induction evs as [|ev evs IH]; intros Hall; [done|].
  simpl. rewrite (Hall ev) by constructor. apply IH.
  intros ev' Hin. apply Hall. by constructor.
Qed.

(** ** Validation *)

Section ValidateFacts.
Variables ParseCIDR ParseIP : string → bool.

Lemma firstBadCIDR_None cidrs :
  (∀ cidr, cidr ∈ cidrs → ParseCIDR cidr = true) → firstBadCIDR ParseCIDR cidrs = None.
Proof.
  induction cidrs as [|cidr rest IH]; intros Hall; simpl; [done|].
  rewrite (Hall cidr) by constructor. apply IH. intros c Hc. apply Hall. by constructor.
Qed.

Lemma validateCIDRs_None subs :
  (∀ id sub cidr, (id, sub) ∈ subs → cidr ∈ AllowedCIDRs sub → ParseCIDR cidr = true) →
  validateCIDRs ParseCIDR subs = None.
Proof.
  induction subs as [|[id sub] rest IH]; intros Hall; simpl; [done|].
  rewrite firstBadCIDR_None.
  - apply IH. intros id' sub' cidr Hin Hc. apply (Hall id' sub'); [by constructor | done].
  - intros cidr. apply (Hall id sub). constructor.
Qed.

Lemma validateNVAIPs_None hubs :
  (∀ hub, hub ∈ hubs → NVANextHop hub = EmptyString ∨ ParseIP (NVANextHop hub) = true) →
  validateNVAIPs ParseIP hubs = None.
Proof.
  induction hubs as [|hub rest IH]; intros Hall; simpl; [done|].
  destruct (Hall hub) as [-> | ->]; [constructor| |]; simpl.
  - apply IH. intros h Hh. apply Hall. by constructor.
  - rewrite andb_false_r. apply IH. intros h Hh. apply Hall. by constructor.
Qed.

(** The CIDR pass reads the allowed ranges and nothing else. *)
Lemma validateCIDRs_ranges subs subs' :
  (AllowedCIDRs ∘ snd) <$> subs = (AllowedCIDRs ∘ snd) <$> subs' →
  validateCIDRs ParseCIDR subs = validateCIDRs ParseCIDR subs'.
Proof.
  revert subs'. induction subs as [|[id sub] rest IH]; intros [|[id' sub'] rest'] Heq;
    try done.
  simpl in *. injection Heq as Hhd Htl. rewrite Hhd.
  destruct (firstBadCIDR ParseCIDR (AllowedCIDRs sub')); [done|]. by apply IH.
Qed.

End ValidateFacts.

(** ** The subscription loop *)

Lemma findHub_None hubs hubName :
  (∀ hub, hub ∈ hubs → Name hub ≠ hubName) → findHub hubs hubName = None.
Proof.
  induction hubs as [|hub rest IH]; intros Hall; simpl; [done|].
  destruct (String.eqb_spec (Name hub) hubName) as [Heq|_].
  - exfalso. apply (Hall hub); [constructor | done].
  - apply IH. intros h Hh. apply Hall. by constructor.
Qed.

Lemma framed_weaken {St A} (Q Q' : Event → Prop) (m : M St A) :
  (∀ ev, Q ev → Q' ev) → framed Q m → framed Q' m.
Proof.
  intros HQ Hm w. destruct (Hm w) as [Hf Hev]. split; [done|].
  eapply Forall_impl; eauto.
Qed.

Section ScopeFacts.
Context {St : Type} (sdk : SDK St).
Variable enforceSubnetIsolation : string → M St unit.

(** A scope whose hub is not found: the factory is already rebound,
    nothing else has happened. *)
Lemma enforceSubscription_missing_hub cfg subID subCFG w :
  RoutingEnforcement (Features cfg) = true →
  findHub (Hubs cfg) (HubName subCFG) = None →
  enforceSubscription sdk enforceSubnetIsolation cfg (subID, subCFG) w =
    (Err ("hub " +:+ HubName subCFG +:+ " not found for subscription " +:+ subID),
     {| factory := SetSubscriptionID (factory w) subID; cloud := cloud w |},
     []).
Proof.
  intros Hfeat Hhub. unfold enforceSubscription, bind, getFactory, setFactory. simpl.
  by rewrite Hfeat, Hhub.
Qed.

(** Apart from the assignment it starts with, the body of the
    subscription loop keeps the factory. *)
Lemma enforceSubscription_factory cfg entry w :
  (∀ subID w', factory (final (enforceSubnetIsolation subID w')) = factory w') →
  factory (final (enforceSubscription sdk enforceSubnetIsolation cfg entry w)) =
    SetSubscriptionID (factory w) entry.1.
Proof.
  intros Hiso. unfold enforceSubscription.
  set (w1 := {| factory := SetSubscriptionID (factory w) entry.1; cloud := cloud w |}).
  set (rest := if RoutingEnforcement (Features cfg) then _ else _).
  assert (framed (fun _ => True) rest) as Hrest.
  { subst rest. destruct (RoutingEnforcement (Features cfg)); [|apply framed_ret].
    destruct (findHub _ _) as [hubCFG|]; [|apply framed_fail].
    apply framed_bind; [|intros _].
    - destruct (RequireNVARouting entry.2); [|apply framed_ret].
      apply framed_wrapErr.
      eapply framed_weaken; [|apply framed_enforceNVARouting]. done.
    - destruct (SubnetToSubnetDeny entry.2); [|apply framed_ret].
      apply framed_wrapErr. intros w'. split; [apply Hiso|].
      apply Forall_forall. done. }
  destruct (Hrest w1) as [Hf _].
  unfold bind, getFactory, setFactory. simpl. fold w1.
  destruct (rest w1) as [[o w2] evs]. exact Hf.
Qed.

End ScopeFacts.

(** ** The embedding on concrete inputs *)

Example extractResourceIDParts_vnet :
  index (extractResourceIDParts (vnet_ID double.vnet1)) "resourceGroups" = "rg1" ∧
  index (extractResourceIDParts (vnet_ID double.vnet1)) "virtualNetworks" = "vnet1" ∧
  index (extractResourceIDParts (vnet_ID double.vnet1)) "routeTables" = EmptyString.
Proof. repeat split; reflexivity. Qed.

Example extractResourceIDParts_odd :
  gostrings.Split "/"%char "a//b/" = ["a"; EmptyString; "b"; EmptyString] ∧
  index (extractResourceIDParts "vnet1") "resourceGroups" = EmptyString ∧
  index (extractResourceIDParts "/resourceGroups") "resourceGroups" = EmptyString.
Proof. repeat split; reflexivity. Qed.

Example invalid_vnet_id :
  enforceNVARoutingForVNet (double.cloudWith [PageOk []] None) "vnet1" "vnet1" double.hubA
    double.world0
  = (Err "invalid VNet ID format: vnet1", double.world0, []).
Proof. reflexivity. Qed.

Example validate_rejects :
  Validate double.parseCIDR double.parseIP (double.configOf [] []) =
    Some "at least one hub configuration is required" ∧
  Validate double.parseCIDR double.parseIP
    (double.configOf [double.hubA]
       [("sub-a", {| AllowedCIDRs := ["10.0.0.0/16"; "10.0.0.0/33"]; HubName := "hub-a";
                     RequireHubPeering := false; RequireNVARouting := true;
                     SubnetToSubnetDeny := false |})]) =
    Some "invalid CIDR in allowedIPRanges: 10.0.0.0/33".
Proof. split; reflexivity. Qed.

(** The scenario of section 8: the first run sends the one create-or-update
    and the table then holds the default route; a second run over the
    remediated cloud sends nothing. *)
Example drifted_then_remediated :
  events (EnforceAll double.scenarioSDK double.noIsolation double.scenarioConfig
            double.scenarioWorld)
  = [double.remediation "sub-a"] ∧
  cloud (final (EnforceAll double.scenarioSDK double.noIsolation double.scenarioConfig
                  double.scenarioWorld)) !! ("sub-a", "rg1", "rt1")
  = Some [double.route "DefaultRoute-To-NVA" "0.0.0.0/0"
            RouteNextHopTypeVirtualAppliance (Some "10.0.0.4")] ∧
  events (EnforceAll double.scenarioSDK double.noIsolation double.scenarioConfig
            (final (EnforceAll double.scenarioSDK double.noIsolation double.scenarioConfig
                      double.scenarioWorld)))
  = [].
Proof. repeat split; vm_compute; reflexivity. Qed.

(** A hub without an NVA address, seen from the whole run. *)
Example missing_nva_run :
  EnforceAll (double.cloudWith [PageOk [double.toInternet]] None) double.noIsolation
    (double.configOf [double.hubNoNVA] [("sub-a", double.subscription "hub-a")])
    double.world0
  = (Err "failed to enforce NVA routing for subscription sub-a: no NVA IPs defined for hub hub-a",
     {| factory := SetSubscriptionID double.factory0 "sub-a"; cloud := tt |},
     [double.warning]).
Proof. reflexivity. Qed.

(** * The claims *)

(** ** Default-route remediation *)

(** C1, as amended. A subnet has a route table whose listing completes,
    and no page of the listing has a compliant route as its first
    [0.0.0.0/0] entry (so the table has no default route, or its
    first-encountered one points elsewhere); the hub has an NVA address.
    Then the enforcement sends exactly one create-or-update, to that
    subnet's route table, with the reserved route name, prefix
    [0.0.0.0/0], next-hop type virtual appliance and the hub's NVA
    address. *)
Theorem remediation_issued_once {St : Type} (sdk : SDK St)
    (hubCFG : HubVNetConfig) (subnet : Subnet) (rt : RouteTable)
    (pages : list (list Route)) (w : World St) :
  subnet_RouteTable subnet = Some rt →
  clientAvailable sdk RoutesClient w →
  routesOf sdk w rt = PageOk <$> pages →
  (∀ page r, page ∈ pages → firstDefault page = Some r → ¬ compliant hubCFG r) →
  NVANextHop hubCFG ≠ EmptyString →
  events (enforceSubnet sdk hubCFG subnet w) =
    [CreateOrUpdate (subscriptionID (factory w)) (tableGroup rt) (tableName rt)
       "DefaultRoute-To-NVA"
       {| route_Name := None;
          Properties := {| AddressPrefix := Some "0.0.0.0/0";
                           NextHopType := Some RouteNextHopTypeVirtualAppliance;
                           NextHopIPAddress := Some (NVANextHop hubCFG) |} |}].
Proof.
  intros Hrt Hclient Hpages Hnone Hnva.
  rewrite (enforceSubnet_routed sdk hubCFG subnet rt w Hrt Hclient), Hpages.
  destruct (scanRoutes_none_compliant hubCFG pages (false, false)) as [found ->].
  { intros page r Hin Hf. eapply first_not_compliant; eauto. }
  unfold needsRemediation. simpl. rewrite orb_true_r.
  apply String.eqb_neq in Hnva. rewrite Hnva.
  by rewrite createOrUpdate_once.
Qed.

Lemma remediation_issued_once_witness :
  events (enforceSubnet (double.cloudWith [PageOk [double.local]; PageOk [double.toInternet]] None)
            double.hubA double.routed double.world0)
  = [double.remediation "sub-0"].
Proof.
  apply (remediation_issued_once
           (double.cloudWith [PageOk [double.local]; PageOk [double.toInternet]] None)
           double.hubA double.routed {| rt_ID := double.rtID |}
           [[double.local]; [double.toInternet]] double.world0).
  - reflexivity.
  - reflexivity.
  - reflexivity.
  - intros page r Hin Hfirst [_ [Htype _]].
    apply elem_of_cons in Hin as [->|Hin].
    + discriminate Hfirst.
    + apply list_elem_of_singleton in Hin as ->.
      injection Hfirst as <-. discriminate Htype.
  - discriminate.
Defined.

(** C1, as stated, fails: the route table has no default route, yet no
    create-or-update is sent, because the hub has no NVA address. *)
Lemma no_remediation_without_nva :
  firstDefault (concat [[double.local]]) = None ∧
  enforceSubnet (double.cloudWith [PageOk [double.local]] None)
    double.hubNoNVA double.routed double.world0
  = (Err "no NVA IPs defined for hub hub-a", double.world0, []).
Proof. split; reflexivity. Qed.

(** C2, as amended. A subnet has a route table whose listing completes and
    whose first-encountered [0.0.0.0/0] route is compliant: the subnet is
    passed over, with no create-or-update, no line printed, no error and
    the world as it was. *)
Theorem compliant_first_route_no_action {St : Type} (sdk : SDK St)
    (hubCFG : HubVNetConfig) (subnet : Subnet) (rt : RouteTable)
    (pages : list (list Route)) (r : Route) (w : World St) :
  subnet_RouteTable subnet = Some rt →
  clientAvailable sdk RoutesClient w →
  routesOf sdk w rt = PageOk <$> pages →
  firstDefault (concat pages) = Some r →
  compliant hubCFG r →
  enforceSubnet sdk hubCFG subnet w = (Ok tt, w, []).
Proof.
  intros Hrt Hclient Hpages Hfirst Hr.
  rewrite (enforceSubnet_routed sdk hubCFG subnet rt w Hrt Hclient), Hpages.
  apply compliant_iff in Hr as [_ Hr].
  by rewrite (scanRoutes_first_compliant hubCFG pages r (false, false) Hfirst Hr).
Qed.

Lemma compliant_first_route_no_action_witness :
  enforceSubnet (double.cloudWith [PageOk [double.local; double.toNVA]; PageOk [double.toInternet]] None)
    double.hubA double.routed double.world0
  = (Ok tt, double.world0, []).
Proof.
  apply (compliant_first_route_no_action
           (double.cloudWith [PageOk [double.local; double.toNVA]; PageOk [double.toInternet]] None)
           double.hubA double.routed {| rt_ID := double.rtID |}
           [[double.local; double.toNVA]; [double.toInternet]] double.toNVA double.world0).
  - reflexivity.
  - reflexivity.
  - reflexivity.
  - reflexivity.
  - repeat split.
Defined.

(** C2, as stated, fails: the table contains a compliant default route,
    but a default route to the internet comes before it, and the
    enforcement sends a create-or-update. *)
Lemma compliant_route_behind_another_default :
  compliant double.hubA double.toNVA ∧
  double.toNVA ∈ [double.toInternet; double.toNVA] ∧
  enforceSubnet (double.cloudWith [PageOk [double.toInternet; double.toNVA]] None)
    double.hubA double.routed double.world0
  = (Ok tt, double.world0, [double.remediation "sub-0"]).
Proof.
  split; [by repeat split|]. split; [|reflexivity].
  apply elem_of_cons. right. constructor.
Qed.

(** ** Duplicate default routes *)

(** C5, as amended. In a listing that completes, the first-encountered
    [0.0.0.0/0] route alone fixes both flags of the scan whenever it is
    compliant, and whenever the listing is a single page: the routes after
    it are never read. A duplicate is not reported: for a subnet with a
    route table the enforcement prints nothing at all. (What a later page
    does to a non-compliant first route is left out.) *)
Theorem first_default_route_decides (hubCFG : HubVNetConfig)
    (pages : list (list Route)) (r : Route) :
  firstDefault (concat pages) = Some r →
  compliant hubCFG r ∨ length pages = 1 →
  scanRoutes hubCFG (PageOk <$> pages) (false, false) = Ok (true, pointsToNVA hubCFG r) ∧
  ∀ (St : Type) (sdk : SDK St) (subnet : Subnet) (rt : RouteTable) (w : World St) line,
    subnet_RouteTable subnet = Some rt →
    Printed line ∉ events (enforceSubnet sdk hubCFG subnet w).
Proof.
  intros Hfirst Hcase. split.
  - destruct Hcase as [Hr|Hone].
    + apply compliant_iff in Hr as [_ Hr]. rewrite Hr.
      by apply scanRoutes_first_compliant with r.
    + destruct pages as [|page [|]]; try done. simpl in *.
      rewrite app_nil_r in Hfirst.
      rewrite scanPage_firstDefault, Hfirst. simpl. by rewrite orb_false_r.
  - intros St sdk subnet rt w line Hrt Hin.
    destruct (framed_enforceSubnet sdk hubCFG subnet w) as [_ Hev].
    unfold enforceSubnet in Hin. rewrite Hrt in Hin.
    unfold bind, getFactory, lift, readCloud in Hin. simpl in Hin.
    destruct (NewRoutesClient sdk (factory w)) as [client|msg];
      [|by apply elem_of_nil in Hin].
    destruct (scanRoutes hubCFG _ (false, false)) as [flags|msg];
      [|by apply elem_of_nil in Hin].
    destruct (negb flags.1 || negb flags.2); [|by apply elem_of_nil in Hin].
    destruct (String.eqb (NVANextHop hubCFG) EmptyString);
      [by apply elem_of_nil in Hin|].
    rewrite createOrUpdate_once in Hin. simpl in Hin.
    apply list_elem_of_singleton in Hin. discriminate Hin.
Qed.

Lemma first_default_route_decides_witness :
  scanRoutes double.hubA
    (PageOk <$> [[double.local; double.toInternet; double.toNVA]]) (false, false)
  = Ok (true, false).
Proof.
  apply (first_default_route_decides double.hubA
           [[double.local; double.toInternet; double.toNVA]] double.toInternet).
  - reflexivity.
  - right. reflexivity.
Defined.

(** C5, as stated, fails twice. The first default route, alone, gives the
    flags (found, not correct); with a compliant default route heading a
    later page the flags become (found, correct) and nothing is sent. And
    nothing is printed: the duplicate raises no warning. *)
Lemma later_page_overrides_first_default :
  firstDefault (concat [[double.toInternet]; [double.toNVA]]) = Some double.toInternet ∧
  scanRoutes double.hubA [PageOk [double.toInternet]] (false, false) = Ok (true, false) ∧
  scanRoutes double.hubA [PageOk [double.toInternet]; PageOk [double.toNVA]] (false, false)
    = Ok (true, true) ∧
  enforceSubnet (double.cloudWith [PageOk [double.toInternet]; PageOk [double.toNVA]] None)
    double.hubA double.routed double.world0
  = (Ok tt, double.world0, []).
Proof. repeat split; reflexivity. Qed.

(** ** Subnets without a route table *)

(** C8. A subnet without a route table is skipped with a warning. The
    body of the subnet loop prints the warning, sends nothing, changes
    nothing and returns no error. And in [enforceNVARoutingForVNet], over
    a network whose subnets are all listed, once the subnets before it
    have been processed the subnets after it are processed as if it had
    not been there, but for the warning in the log: the outcome of the
    network is theirs. *)
Theorem unrouted_subnet_skipped {St : Type} (sdk : SDK St)
    (hubCFG : HubVNetConfig) (subnet : Subnet) :
  subnet_RouteTable subnet = None →
  (∀ w, enforceSubnet sdk hubCFG subnet w =
          (Ok tt, w,
           [Printed ("WARNING: No route table found for subnet: "
                     +:+ subnet_Name subnet)])) ∧
  (∀ vnetID vnetName (pages : list (list Subnet)) before after w w1 evs1,
      index (extractResourceIDParts vnetID) "resourceGroups" ≠ EmptyString →
      clientAvailable sdk SubnetsClient w →
      NewListPager_subnets sdk (cloud w) (subscriptionID (factory w))
        (index (extractResourceIDParts vnetID) "resourceGroups") vnetName
        = PageOk <$> pages →
      concat pages = before ++ subnet :: after →
      forEach (enforceSubnet sdk hubCFG) before w = (Ok tt, w1, evs1) →
      enforceNVARoutingForVNet sdk vnetID vnetName hubCFG w =
        (outcome (forEach (enforceSubnet sdk hubCFG) after w1),
         final (forEach (enforceSubnet sdk hubCFG) after w1),
         evs1 ++ Printed ("WARNING: No route table found for subnet: "
                          +:+ subnet_Name subnet)
              :: events (forEach (enforceSubnet sdk hubCFG) after w1))).
Proof.
  intros Hrt. split.
  - intros w. by apply enforceSubnet_unrouted.
  - intros vnetID vnetName pages before after w w1 evs1 Hrg Hclient Hpages Hsplit Hbefore.
    rewrite (enforceNVARoutingForVNet_subnets sdk vnetID vnetName hubCFG pages w
               Hrg Hclient Hpages), Hsplit.
    by rewrite (forEach_step _ before subnet after w w1 evs1 w1 _ Hbefore
                  (enforceSubnet_unrouted sdk hubCFG subnet w1 Hrt)).
Qed.

Lemma unrouted_subnet_skipped_witness :
  enforceSubnet (double.cloudWith [PageOk []] None) double.hubA double.unrouted double.world0
  = (Ok tt, double.world0, [double.warning]) ∧
  enforceNVARoutingForVNet (double.cloudWith [PageOk []] None)
    (vnet_ID double.vnet1) (vnet_Name double.vnet1) double.hubA double.world0
  = (Ok tt, double.world0, [double.warning; double.remediation "sub-0"]).
Proof.
  destruct (unrouted_subnet_skipped (double.cloudWith [PageOk []] None)
              double.hubA double.unrouted) as [Hbody Hloop].
  - reflexivity.
  - split.
    + apply Hbody.
    + rewrite (Hloop (vnet_ID double.vnet1) (vnet_Name double.vnet1)
                 [[double.unrouted; double.routed]] [] [double.routed]
                 double.world0 double.world0 []); try reflexivity.
      discriminate.
Defined.

(** ** A hub without an NVA address *)

(** C10. A configuration with a hub whose NVA address is empty passes
    validation (its ranges and its other hubs being valid); and when a
    subnet of a scope assigned to that hub needs its default route
    remediated, the enforcement returns the error "no NVA IPs defined for
    hub ..." and sends nothing. *)
Theorem missing_nva_found_at_remediation (ParseCIDR ParseIP : string → bool)
    (cfg : Config) (hubCFG : HubVNetConfig) :
  hubCFG ∈ Hubs cfg →
  NVANextHop hubCFG = EmptyString →
  (∀ id sub cidr, (id, sub) ∈ Subscriptions cfg → cidr ∈ AllowedCIDRs sub →
                  ParseCIDR cidr = true) →
  (∀ hub, hub ∈ Hubs cfg →
          NVANextHop hub = EmptyString ∨ ParseIP (NVANextHop hub) = true) →
  Validate ParseCIDR ParseIP cfg = None ∧
  ∀ (St : Type) (sdk : SDK St) (subnet : Subnet) (rt : RouteTable) (flags : Flags)
    (w : World St),
    subnet_RouteTable subnet = Some rt →
    clientAvailable sdk RoutesClient w →
    scanRoutes hubCFG (routesOf sdk w rt) (false, false) = Ok flags →
    needsRemediation flags = true →
    enforceSubnet sdk hubCFG subnet w =
      (Err ("no NVA IPs defined for hub " +:+ Name hubCFG), w, []).
Proof.
  intros Hin Hnva Hcidrs Hips. split.
  - unfold Validate. rewrite validateCIDRs_None by exact Hcidrs.
    destruct (Hubs cfg) as [|hub hubs] eqn:Hhubs; [by apply elem_of_nil in Hin|].
    simpl length. simpl Nat.eqb. cbv iota. by apply validateNVAIPs_None.
  - intros St sdk subnet rt flags w Hrt Hclient Hscan Hneeds.
    rewrite (enforceSubnet_routed sdk hubCFG subnet rt w Hrt Hclient), Hscan, Hneeds.
    by rewrite Hnva.
Qed.

Lemma missing_nva_found_at_remediation_witness :
  Validate double.parseCIDR double.parseIP
    (double.configOf [double.hubNoNVA] [("sub-a", double.subscription "hub-a")]) = None ∧
  enforceSubnet (double.cloudWith [PageOk [double.toInternet]] None)
    double.hubNoNVA double.routed double.world0
  = (Err "no NVA IPs defined for hub hub-a", double.world0, []).
Proof.
  destruct (missing_nva_found_at_remediation double.parseCIDR double.parseIP
              (double.configOf [double.hubNoNVA] [("sub-a", double.subscription "hub-a")])
              double.hubNoNVA) as [Hvalid Hrun].
  - constructor.
  - reflexivity.
  - intros id sub cidr Hsub Hcidr.
    apply list_elem_of_singleton in Hsub. injection Hsub as _ ->.
    apply list_elem_of_singleton in Hcidr as ->. reflexivity.
  - intros hub Hhub. apply list_elem_of_singleton in Hhub as ->. left. reflexivity.
  - split; [exact Hvalid|].
    apply (Hrun unit (double.cloudWith [PageOk [double.toInternet]] None)
             double.routed {| rt_ID := double.rtID |} (true, false) double.world0);
      reflexivity.
Defined.

(** ** Scopes *)

(** C3, as amended. A scope references a hub name that no hub carries.
    Validation does not look at hub references: its answer is the one it
    gives to every configuration with the same hubs and the same allowed
    ranges. The reference is found dangling during enforcement: with
    routing enforcement enabled, once the scopes visited before have
    succeeded, [EnforceAll] rebinds the factory to the scope and returns
    "hub ... not found for subscription ...". *)
Theorem dangling_hub_found_at_enforcement {St : Type} (sdk : SDK St)
    (enforceSubnetIsolation : string → M St unit)
    (ParseCIDR ParseIP : string → bool) (cfg : Config)
    (before : list (string * SubscriptionConfig)) (subID : string)
    (subCFG : SubscriptionConfig) (after : list (string * SubscriptionConfig))
    (w w1 : World St) (evs1 : list Event) :
  Subscriptions cfg = before ++ (subID, subCFG) :: after →
  (∀ hub, hub ∈ Hubs cfg → Name hub ≠ HubName subCFG) →
  RoutingEnforcement (Features cfg) = true →
  forEach (enforceSubscription sdk enforceSubnetIsolation cfg) before w = (Ok tt, w1, evs1) →
  (∀ cfg', Hubs cfg' = Hubs cfg →
           (AllowedCIDRs ∘ snd) <$> Subscriptions cfg'
             = (AllowedCIDRs ∘ snd) <$> Subscriptions cfg →
           Validate ParseCIDR ParseIP cfg' = Validate ParseCIDR ParseIP cfg) ∧
  EnforceAll sdk enforceSubnetIsolation cfg w =
    (Err ("hub " +:+ HubName subCFG +:+ " not found for subscription " +:+ subID),
     {| factory := SetSubscriptionID (factory w1) subID; cloud := cloud w1 |},
     evs1).
Proof.
  intros Hsubs Hdangling Hfeat Hbefore. split.
  - intros cfg' Hhubs Hranges. unfold Validate.
    by rewrite Hhubs, (validateCIDRs_ranges ParseCIDR _ _ Hranges).
  - unfold EnforceAll. rewrite Hsubs.
    rewrite (forEach_abort _ before (subID, subCFG) after w w1 evs1 _ _ [] Hbefore
               (enforceSubscription_missing_hub sdk enforceSubnetIsolation cfg subID subCFG w1
                  Hfeat (findHub_None _ _ Hdangling))).
    by rewrite app_nil_r.
Qed.

Lemma dangling_hub_found_at_enforcement_witness :
  EnforceAll (double.cloudWith [PageOk []] None) double.noIsolation
    (double.configOf [double.hubA]
       [("sub-b", double.subscription "hub-a"); ("sub-a", double.subscription "hub-b")])
    double.world0
  = (Err "hub hub-b not found for subscription sub-a",
     {| factory := SetSubscriptionID double.factory0 "sub-a"; cloud := tt |},
     [double.warning; double.remediation "sub-b"]).
Proof.
  apply (dangling_hub_found_at_enforcement (double.cloudWith [PageOk []] None)
           double.noIsolation double.parseCIDR double.parseIP
           (double.configOf [double.hubA]
              [("sub-b", double.subscription "hub-a"); ("sub-a", double.subscription "hub-b")])
           [("sub-b", double.subscription "hub-a")] "sub-a" (double.subscription "hub-b") []
           double.world0
           {| factory := SetSubscriptionID double.factory0 "sub-b"; cloud := tt |}
           [double.warning; double.remediation "sub-b"]).
  - reflexivity.
  - intros hub Hhub. apply list_elem_of_singleton in Hhub as ->. discriminate.
  - reflexivity.
  - reflexivity.
Defined.

(** C3, as stated, fails: the only scope references a hub that is not
    defined; validation accepts the configuration and the enforcement
    returns the error for that scope at run time. *)
Lemma dangling_hub_passes_validation :
  findHub [double.hubA] "hub-b" = None ∧
  Validate double.parseCIDR double.parseIP
    (double.configOf [double.hubA] [("sub-a", double.subscription "hub-b")]) = None ∧
  EnforceAll (double.cloudWith [PageOk []] None) double.noIsolation
    (double.configOf [double.hubA] [("sub-a", double.subscription "hub-b")]) double.world0
  = (Err "hub hub-b not found for subscription sub-a",
     {| factory := SetSubscriptionID double.factory0 "sub-a"; cloud := tt |}, []).
Proof. repeat split; reflexivity. Qed.

(** C4, as amended. When a scope fails, the run stops there: [EnforceAll]
    returns that scope's error, with the world and the log as that scope
    left them; the scopes visited before keep their effects, and the
    scopes after it in the order of the run are not processed. *)
Theorem first_failure_aborts_run {St : Type} (sdk : SDK St)
    (enforceSubnetIsolation : string → M St unit) (cfg : Config)
    (before : list (string * SubscriptionConfig)) (entry : string * SubscriptionConfig)
    (after : list (string * SubscriptionConfig))
    (w w1 w2 : World St) (evs1 evs2 : list Event) (msg : string) :
  Subscriptions cfg = before ++ entry :: after →
  forEach (enforceSubscription sdk enforceSubnetIsolation cfg) before w = (Ok tt, w1, evs1) →
  enforceSubscription sdk enforceSubnetIsolation cfg entry w1 = (Err msg, w2, evs2) →
  EnforceAll sdk enforceSubnetIsolation cfg w = (Err msg, w2, evs1 ++ evs2).
Proof.
  intros Hsubs Hbefore Hentry. unfold EnforceAll. rewrite Hsubs.
  by apply forEach_abort with w1.
Qed.

Lemma first_failure_aborts_run_witness :
  EnforceAll (double.cloudWith [PageErr double.throttled] None) double.noIsolation
    (double.configOf [double.hubA]
       [("sub-a", double.subscription "hub-a"); ("sub-b", double.subscription "hub-a")])
    double.world0
  = (Err "failed to enforce NVA routing for subscription sub-a: failed to list routes: 429 Too Many Requests",
     {| factory := SetSubscriptionID double.factory0 "sub-a"; cloud := tt |},
     [] ++ [double.warning]).
Proof.
  apply (first_failure_aborts_run (double.cloudWith [PageErr double.throttled] None)
           double.noIsolation
           (double.configOf [double.hubA]
              [("sub-a", double.subscription "hub-a"); ("sub-b", double.subscription "hub-a")])
           [] ("sub-a", double.subscription "hub-a") [("sub-b", double.subscription "hub-a")]
           double.world0 double.world0); reflexivity.
Defined.

(** C4, as stated, fails: the first scope fails (its hub is not defined)
    and the second scope, whose routed subnet lacks a default route, is
    never processed: nothing is logged and the factory is never bound to
    it. Run alone, the second scope is remediated. *)
Lemma failed_scope_stops_the_run :
  EnforceAll (double.cloudWith [PageOk []] None) double.noIsolation
    (double.configOf [double.hubA]
       [("sub-a", double.subscription "hub-b"); ("sub-b", double.subscription "hub-a")])
    double.world0
  = (Err "hub hub-b not found for subscription sub-a",
     {| factory := SetSubscriptionID double.factory0 "sub-a"; cloud := tt |}, []) ∧
  EnforceAll (double.cloudWith [PageOk []] None) double.noIsolation
    (double.configOf [double.hubA] [("sub-b", double.subscription "hub-a")])
    double.world0
  = (Ok tt,
     {| factory := SetSubscriptionID double.factory0 "sub-b"; cloud := tt |},
     [double.warning; double.remediation "sub-b"]).
Proof. split; reflexivity. Qed.

(** C9, as amended. Processing a scope assigns the scope's identifier to
    the subscription field of the shared client factory, and leaves it
    there: after the scope, the factory is the one before it with that
    field overwritten (credential and options are kept), provided the
    subnet isolation pass keeps the factory. *)
Theorem scope_rebinds_shared_factory {St : Type} (sdk : SDK St)
    (enforceSubnetIsolation : string → M St unit) (cfg : Config)
    (entry : string * SubscriptionConfig) (w : World St) :
  (∀ subID w', factory (final (enforceSubnetIsolation subID w')) = factory w') →
  factory (final (enforceSubscription sdk enforceSubnetIsolation cfg entry w)) =
    {| cred := cred (factory w);
       clientOptions := clientOptions (factory w);
       subscriptionID := entry.1 |}.
Proof. intros Hiso. by rewrite enforceSubscription_factory. Qed.

Lemma scope_rebinds_shared_factory_witness :
  factory (final (enforceSubscription (double.cloudWith [PageOk []] None)
                    double.noIsolation (double.configOf [double.hubA] [])
                    ("sub-a", double.subscription "hub-a") double.world0))
  = {| cred := DefaultAzureCredential;
       clientOptions := EmptyClientOptions;
       subscriptionID := "sub-a" |}.
Proof.
  apply (scope_rebinds_shared_factory (double.cloudWith [PageOk []] None)
           double.noIsolation (double.configOf [double.hubA] [])
           ("sub-a", double.subscription "hub-a") double.world0).
  intros subID w'. reflexivity.
Defined.

(** C9, as stated, fails: the factory is bound to [sub-0] before the run
    and to the scope [sub-a] after it. *)
Lemma scope_overwrites_factory_subscription :
  subscriptionID (factory double.world0) = "sub-0" ∧
  subscriptionID
    (factory (final (EnforceAll (double.cloudWith [PageOk [double.toNVA]] None)
                       double.noIsolation
                       (double.configOf [double.hubA] [("sub-a", double.subscription "hub-a")])
                       double.world0)))
  = "sub-a".
Proof. split; reflexivity. Qed.

(** ** Idempotence *)

(** C7. Whatever the scope's routing enforcement sent during a run,
    applying those create-or-updates to a route store a second time
    leaves the store as the first application left it: every one of them
    carries the reserved name and the full payload, and the provider
    replaces a route of that name in place. *)
Theorem reapplying_actions_changes_nothing {St : Type} (sdk : SDK St)
    (subID : string) (hubCFG : HubVNetConfig) (w : World St)
    (store : gmap (string * string * string) (list Route)) :
  applyAll (events (enforceNVARouting sdk subID hubCFG w))
    (applyAll (events (enforceNVARouting sdk subID hubCFG w)) store)
  = applyAll (events (enforceNVARouting sdk subID hubCFG w)) store.
Proof.
  apply applyAll_settled. intros ev Hin.
  eapply applyAll_settles; [|exact Hin].
  apply (framed_enforceNVARouting sdk subID hubCFG w).
Qed.

(** * Further properties of the code *)

Import loader props.

(** ** Validation in full *)

Section ValidateMore.
Variables ParseCIDR ParseIP : string → bool.

Lemma firstBadCIDR_Some cidrs cidr :
  firstBadCIDR ParseCIDR cidrs = Some cidr → cidr ∈ cidrs ∧ ParseCIDR cidr = false.
Proof.
  induction cidrs as [|c rest IH]; simpl; [done|].
  destruct (ParseCIDR c) eqn:Hc.
  - intros H. destruct (IH H). split; [by constructor | done].
  - intros [= <-]. split; [constructor | done].
Qed.

Lemma validateCIDRs_Some subs e :
  validateCIDRs ParseCIDR subs = Some e →
  ∃ id sub cidr, (id, sub) ∈ subs ∧ cidr ∈ AllowedCIDRs sub ∧ ParseCIDR cidr = false ∧
                 e = "invalid CIDR in allowedIPRanges: " +:+ cidr.
Proof.
  induction subs as [|[id sub] rest IH]; simpl; [done|].
  destruct (firstBadCIDR ParseCIDR (AllowedCIDRs sub)) as [cidr|] eqn:Hbad.
  - intros [= <-]. apply firstBadCIDR_Some in Hbad as [Hin Hc].
    exists id, sub, cidr. repeat split; [constructor | done..].
  - intros H. destruct (IH H) as (id' & sub' & cidr & Hin & Hc & Hp & He).
    exists id', sub', cidr. repeat split; [by constructor | done..].
Qed.

Lemma validateNVAIPs_Some hubs e :
  validateNVAIPs ParseIP hubs = Some e →
  ∃ hub, hub ∈ hubs ∧ NVANextHop hub ≠ EmptyString ∧ ParseIP (NVANextHop hub) = false ∧
         e = "invalid NVA IP: " +:+ NVANextHop hub.
Proof.
  induction hubs as [|hub rest IH]; simpl; [done|].
  destruct (String.eqb_spec (NVANextHop hub) EmptyString) as [Hempty|Hne]; simpl.
  - intros H. destruct (IH H) as (h & Hin & Hrest). exists h. split; [by constructor | done].
  - destruct (ParseIP (NVANextHop hub)) eqn:Hip; simpl.
    + intros H. destruct (IH H) as (h & Hin & Hrest). exists h. split; [by constructor | done].
    + intros [= <-]. exists hub. repeat split; [constructor | done..].
Qed.

Lemma firstBadCIDR_None_inv cidrs cidr :
  firstBadCIDR ParseCIDR cidrs = None → cidr ∈ cidrs → ParseCIDR cidr = true.
Proof.
  induction cidrs as [|c rest IH]; simpl; intros Hnone Hin.
  - by apply elem_of_nil in Hin.
  - destruct (ParseCIDR c) eqn:Hc; [|done].
    apply elem_of_cons in Hin as [->|Hin]; [done | by apply IH].
Qed.

Lemma validateCIDRs_None_inv subs id sub cidr :
  validateCIDRs ParseCIDR subs = None →
  (id, sub) ∈ subs → cidr ∈ AllowedCIDRs sub → ParseCIDR cidr = true.
Proof.
  induction subs as [|[id' sub'] rest IH]; simpl; intros Hnone Hin Hcidr.
  - by apply elem_of_nil in Hin.
  - destruct (firstBadCIDR ParseCIDR (AllowedCIDRs sub')) eqn:Hbad; [done|].
    apply elem_of_cons in Hin as [Heq|Hin]; [|by apply IH].
    injection Heq as -> ->. by apply firstBadCIDR_None_inv with (AllowedCIDRs sub').
Qed.

Lemma validateNVAIPs_None_inv hubs hub :
  validateNVAIPs ParseIP hubs = None → hub ∈ hubs →
  NVANextHop hub = EmptyString ∨ ParseIP (NVANextHop hub) = true.
Proof.
  induction hubs as [|h rest IH]; simpl; intros Hnone Hin.
  - by apply elem_of_nil in Hin.
  - destruct (String.eqb_spec (NVANextHop h) EmptyString) as [He|Hne];
      destruct (ParseIP (NVANextHop h)) eqn:Hip; simpl in Hnone; try done;
      (apply elem_of_cons in Hin as [->|Hin]; [auto | by apply IH]).
Qed.

End ValidateMore.

(** X1. [Validate] accepts a configuration exactly when every allowed
    range of every subscription parses as a CIDR, there is at least one
    hub, and every hub's NVA address is empty or parses as an IP
    address. *)
Theorem Validate_accepts_iff (ParseCIDR ParseIP : string → bool) (cfg : Config) :
  Validate ParseCIDR ParseIP cfg = None ↔
    (∀ id sub cidr, (id, sub) ∈ Subscriptions cfg → cidr ∈ AllowedCIDRs sub →
                    ParseCIDR cidr = true) ∧
    Hubs cfg ≠ [] ∧
    (∀ hub, hub ∈ Hubs cfg →
            NVANextHop hub = EmptyString ∨ ParseIP (NVANextHop hub) = true).
Proof.
  unfold Validate. split.
  - intros Hok.
    destruct (validateCIDRs ParseCIDR (Subscriptions cfg)) as [e|] eqn:Hc; [done|].
    destruct (Hubs cfg) as [|hub0 hubs] eqn:Hhubs; [done|].
    cbn [length Nat.eqb] in Hok.
    split; [|split; [done|]].
    + intros id sub cidr. by apply validateCIDRs_None_inv.
    + intros hub. by apply validateNVAIPs_None_inv.
  - intros (Hcidrs & Hhubs & Hips).
    rewrite validateCIDRs_None by exact Hcidrs.
    destruct (Hubs cfg) as [|hub0 hubs]; [done|].
    cbn [length Nat.eqb]. by apply validateNVAIPs_None.
Qed.

(** X2. Every error of [Validate] is justified, and the checks are made
    in the order CIDRs, hubs, NVA addresses: the error names an allowed
    range that does not parse; or every range parses, there is no hub and
    the error says so; or every range parses and the error names the
    non-empty NVA address of a hub that does not parse. *)
Theorem Validate_error_sound (ParseCIDR ParseIP : string → bool) (cfg : Config) (e : string) :
  Validate ParseCIDR ParseIP cfg = Some e →
  (∃ id sub cidr, (id, sub) ∈ Subscriptions cfg ∧ cidr ∈ AllowedCIDRs sub ∧
                  ParseCIDR cidr = false ∧
                  e = "invalid CIDR in allowedIPRanges: " +:+ cidr) ∨
  (validateCIDRs ParseCIDR (Subscriptions cfg) = None ∧ Hubs cfg = [] ∧
   e = "at least one hub configuration is required") ∨
  (validateCIDRs ParseCIDR (Subscriptions cfg) = None ∧
   ∃ hub, hub ∈ Hubs cfg ∧ NVANextHop hub ≠ EmptyString ∧
          ParseIP (NVANextHop hub) = false ∧ e = "invalid NVA IP: " +:+ NVANextHop hub).
Proof.
  unfold Validate.
  destruct (validateCIDRs ParseCIDR (Subscriptions cfg)) as [e'|] eqn:Hc.
  - intros [= <-]. left. by apply validateCIDRs_Some.
  - destruct (Hubs cfg) as [|hub0 hubs] eqn:Hhubs.
    + intros [= <-]. right. left. done.
    + cbn [length Nat.eqb]. intros H. right. right. split; [done|].
      by apply validateNVAIPs_Some.
Qed.

Lemma Validate_error_sound_witness :
  ∃ hub, hub ∈ [double.hubA; {| VNetID := "/x"; ResourceGroup := "rg"; Name := "hub-b";
                               NVANextHop := "10.0.0.300" |}] ∧
         NVANextHop hub ≠ EmptyString ∧ double.parseIP (NVANextHop hub) = false.
Proof.
  destruct (Validate_error_sound double.parseCIDR double.parseIP
              (double.configOf
                 [double.hubA; {| VNetID := "/x"; ResourceGroup := "rg"; Name := "hub-b";
                                  NVANextHop := "10.0.0.300" |}]
                 [("sub-a", double.subscription "hub-a")])
              "invalid NVA IP: 10.0.0.300")
    as [(id & sub & cidr & Hin & Hcidr & Hparse & _) | [(_ & Hhubs & _) | (_ & hub & Hin & Hne & Hip & _)]].
  - reflexivity.
  - apply list_elem_of_singleton in Hin. injection Hin as _ ->.
    apply list_elem_of_singleton in Hcidr as ->. discriminate Hparse.
  - discriminate Hhubs.
  - exists hub. done.
Defined.

(** ** The loader *)

Section LoaderFacts.
Variable Getenv : string → string.
Variable ToLower : string → string.
Variable Atoi : string → option Z.

Lemma orEnv_orEnv name field :
  orEnv Getenv name (orEnv Getenv name field) = orEnv Getenv name field.
Proof. unfold orEnv. cbv zeta. by destruct (String.eqb _ EmptyString) eqn:He; rewrite ?He. Qed.

Lemma flagOrEnv_flagOrEnv name flag :
  flagOrEnv Getenv ToLower name (flagOrEnv Getenv ToLower name flag)
  = flagOrEnv Getenv ToLower name flag.
Proof.
  unfold flagOrEnv. cbv zeta. by destruct (String.eqb _ EmptyString) eqn:He; rewrite ?He.
Qed.

Lemma overrideAzure_idem a :
  overrideAzure Getenv (overrideAzure Getenv a) = overrideAzure Getenv a.
Proof. unfold overrideAzure. simpl. by rewrite !orEnv_orEnv. Qed.

Lemma overrideFeatures_idem f :
  overrideFeatures Getenv ToLower (overrideFeatures Getenv ToLower f)
  = overrideFeatures Getenv ToLower f.
Proof. unfold overrideFeatures. simpl. by rewrite !flagOrEnv_flagOrEnv. Qed.

Lemma overrideLogging_idem l :
  overrideLogging Getenv (overrideLogging Getenv l) = overrideLogging Getenv l.
Proof. unfold overrideLogging. simpl. by rewrite !orEnv_orEnv. Qed.

(** The configuration that [overrideFromEnv] leaves has the hubs and the
    subscriptions it was given. *)
Lemma overrideFromEnv_scopes cfg :
  Hubs (overrideFromEnv Getenv ToLower Atoi cfg).1 = Hubs cfg ∧
  Subscriptions (overrideFromEnv Getenv ToLower Atoi cfg).1 = Subscriptions cfg.
Proof.
  unfold overrideFromEnv. cbv zeta.
  destruct (String.eqb _ EmptyString); [done|]. by destruct (Atoi _).
Qed.

(** What a successful [overrideFromEnv] returns, part by part. *)
Lemma overrideFromEnv_ok cfg cfg' :
  overrideFromEnv Getenv ToLower Atoi cfg = (cfg', None) →
  Azure cfg' = overrideAzure Getenv (Azure cfg) ∧
  Features cfg' = overrideFeatures Getenv ToLower (Features cfg) ∧
  Hubs cfg' = Hubs cfg ∧
  Subscriptions cfg' = Subscriptions cfg.
Proof.
  unfold overrideFromEnv. cbv zeta.
  destruct (String.eqb _ EmptyString); [by intros [= <-]|].
  destruct (Atoi _); [by intros [= <-] | done].
Qed.

End LoaderFacts.

(** X3. The environment overrides never touch the hubs, the
    subscriptions, the client secret, the identity switch, the TLS
    settings or the log output path, whether they succeed or fail; so the
    verdict of [Validate] on the overridden configuration is its verdict
    on the configuration read from the file. *)
Theorem overrides_leave_policy_alone (Getenv : string → string) (ToLower : string → string)
    (Atoi : string → option Z) (ParseCIDR ParseIP : string → bool) (cfg : Config) :
  let cfg' := (overrideFromEnv Getenv ToLower Atoi cfg).1 in
  Hubs cfg' = Hubs cfg ∧
  Subscriptions cfg' = Subscriptions cfg ∧
  ClientSecret (Azure cfg') = ClientSecret (Azure cfg) ∧
  UseAzureIdentity (Azure cfg') = UseAzureIdentity (Azure cfg) ∧
  TLSEnabled (API cfg') = TLSEnabled (API cfg) ∧
  TLSCertPath (API cfg') = TLSCertPath (API cfg) ∧
  TLSKeyPath (API cfg') = TLSKeyPath (API cfg) ∧
  OutputPath (Logging cfg') = OutputPath (Logging cfg) ∧
  Validate ParseCIDR ParseIP cfg' = Validate ParseCIDR ParseIP cfg.
Proof.
  unfold overrideFromEnv. cbv zeta.
  destruct (String.eqb _ EmptyString); [by repeat split|].
  by destruct (Atoi _); repeat split.
Qed.

(** X4. In an environment that sets none of the variables,
    [overrideFromEnv] succeeds and leaves the configuration as it was. *)
Theorem overrides_empty_environment (Getenv : string → string) (ToLower : string → string)
    (Atoi : string → option Z) (cfg : Config) :
  (∀ k, Getenv k = EmptyString) →
  overrideFromEnv Getenv ToLower Atoi cfg = (cfg, None).
Proof.
  intros Hunset. unfold overrideFromEnv, overrideAzure, overrideFeatures, overrideLogging,
    orEnv, flagOrEnv. cbv zeta. rewrite !Hunset. cbn [String.eqb].
  destruct cfg as [[] hubs subs [] [] []]. reflexivity.
Qed.

Lemma overrides_empty_environment_witness :
  overrideFromEnv fixture.noenv fixture.toLower fixture.atoi double.scenarioConfig
  = (double.scenarioConfig, None).
Proof.
  apply (overrides_empty_environment fixture.noenv fixture.toLower fixture.atoi
           double.scenarioConfig).
  intros k. reflexivity.
Defined.

(** X5. The overrides are idempotent: applied to the configuration they
    produced, in the same environment, they succeed and change nothing. *)
Theorem overrides_idempotent (Getenv : string → string) (ToLower : string → string)
    (Atoi : string → option Z) (cfg cfg' : Config) :
  overrideFromEnv Getenv ToLower Atoi cfg = (cfg', None) →
  overrideFromEnv Getenv ToLower Atoi cfg' = (cfg', None).
Proof.
  unfold overrideFromEnv. cbv zeta.
  destruct (String.eqb (Getenv (EnvPrefix +:+ "API_PORT")) EmptyString) eqn:Hport.
  - intros [= <-]. simpl.
    by rewrite overrideAzure_idem, overrideFeatures_idem, overrideLogging_idem, orEnv_orEnv.
  - destruct (Atoi (Getenv (EnvPrefix +:+ "API_PORT"))) as [port|] eqn:Hatoi; [|done].
    intros [= <-]. simpl.
    by rewrite overrideAzure_idem, overrideFeatures_idem, overrideLogging_idem, orEnv_orEnv.
Qed.

Lemma overrides_idempotent_witness :
  overrideFromEnv fixture.getenv fixture.toLower fixture.atoi
    (overrideFromEnv fixture.getenv fixture.toLower fixture.atoi double.scenarioConfig).1
  = ((overrideFromEnv fixture.getenv fixture.toLower fixture.atoi double.scenarioConfig).1,
     None).
Proof.
  apply (overrides_idempotent fixture.getenv fixture.toLower fixture.atoi
           double.scenarioConfig). reflexivity.
Defined.

(** X6. The overrides fail in one case only: [VELORA_API_PORT] is set
    and is no integer; the error quotes the value. *)
Theorem overrides_fail_iff (Getenv : string → string) (ToLower : string → string)
    (Atoi : string → option Z) (cfg : Config) (e : string) :
  (overrideFromEnv Getenv ToLower Atoi cfg).2 = Some e ↔
    Getenv "VELORA_API_PORT" ≠ EmptyString ∧
    Atoi (Getenv "VELORA_API_PORT") = None ∧
    e = "invalid API port: " +:+ Getenv "VELORA_API_PORT".
Proof.
  unfold overrideFromEnv. cbv zeta.
  change (EnvPrefix +:+ "API_PORT") with "VELORA_API_PORT".
  destruct (String.eqb_spec (Getenv "VELORA_API_PORT") EmptyString) as [Hempty|Hset].
  - split; [done | by intros [? _]].
  - destruct (Atoi (Getenv "VELORA_API_PORT")) as [port|]; simpl.
    + split; [done | by intros (_ & ? & _)].
    + split; [by intros [= <-] | by intros (_ & _ & ->)].
Qed.

(** ** Relations kept by every run *)

Section Always.
Context {St : Type}.
Variable R : World St → World St → list Event → Prop.
Hypothesis R_refl : ∀ w, R w w [].
Hypothesis R_trans : ∀ w w1 w2 evs1 evs2, R w w1 evs1 → R w1 w2 evs2 → R w w2 (evs1 ++ evs2).

Lemma always_ret {A} (a : A) : always R (ret a).
Proof. intros w. apply R_refl. Qed.

Lemma always_fail {A} msg : always (A := A) R (fail msg).
Proof. intros w. apply R_refl. Qed.

Lemma always_lift {A} (o : Outcome A) : always R (lift o).
Proof. intros w. apply R_refl. Qed.

Lemma always_getFactory : always R getFactory.
Proof. intros w. apply R_refl. Qed.

Lemma always_readCloud {A} (f : St → A) : always R (readCloud f).
Proof. intros w. apply R_refl. Qed.

Lemma always_bind {A B} (m : M St A) (k : A → M St B) :
  always R m → (∀ a, always R (k a)) → always R (bind m k).
Proof.
  intros Hm Hk w. pose proof (Hm w) as H1. unfold bind.
  destruct (m w) as [[[a|msg] w1] evs1]; [|exact H1].
  pose proof (Hk a w1) as H2. destruct (k a w1) as [[o w2] evs2].
  unfold final, events in *; simpl in *. by apply R_trans with w1.
Qed.

Lemma always_wrapErr {A} prefix (m : M St A) : always R m → always R (wrapErr prefix m).
Proof.
  intros Hm w. specialize (Hm w). unfold wrapErr.
  by destruct (m w) as [[[a|msg] w1] evs1].
Qed.

Lemma always_forEach {A} (body : A → M St unit) items :
  (∀ x, always R (body x)) → always R (forEach body items).
Proof.
  intros Hbody. induction items as [|x items IH]; simpl.
  - apply always_ret.
  - apply always_bind; [apply Hbody | intros _; exact IH].
Qed.

Lemma always_forPages {A} wrap (body : A → M St unit) pager :
  (∀ x, always R (body x)) → always R (forPages wrap body pager).
Proof.
  intros Hbody. induction pager as [|[items|e] pager IH]; simpl.
  - apply always_ret.
  - apply always_bind; [by apply always_forEach | intros _; exact IH].
  - apply always_fail.
Qed.

(** What holds of the body of the subnet loop holds of the loops around
    it. *)
Lemma always_enforceNVARoutingForVNet (sdk : SDK St) vnetID vnetName hubCFG :
  (∀ subnet, always R (enforceSubnet sdk hubCFG subnet)) →
  always R (enforceNVARoutingForVNet sdk vnetID vnetName hubCFG).
Proof.
  intros Hbody. unfold enforceNVARoutingForVNet.
  destruct (String.eqb _ EmptyString); [apply always_fail|].
  apply always_bind; [apply always_getFactory|]. intros f.
  apply always_bind; [apply always_lift|]. intros client.
  apply always_bind; [apply always_readCloud|]. intros pager.
  by apply always_forPages.
Qed.

Lemma always_enforceNVARouting (sdk : SDK St) subID hubCFG :
  (∀ subnet, always R (enforceSubnet sdk hubCFG subnet)) →
  always R (enforceNVARouting sdk subID hubCFG).
Proof.
  intros Hbody. unfold enforceNVARouting.
  apply always_bind; [apply always_getFactory|]. intros f.
  apply always_bind; [apply always_lift|]. intros client.
  apply always_bind; [apply always_readCloud|]. intros pager.
  apply always_forPages. intros vnet. by apply always_enforceNVARoutingForVNet.
Qed.

End Always.

(** ** What one subnet can log *)

Lemma calls_app evs1 evs2 : calls (evs1 ++ evs2) = calls evs1 + calls evs2.
Proof. unfold calls. by rewrite filter_app, length_app. Qed.

Lemma routed_cons (subnet : Subnet) (rest : list Subnet) :
  length (filter (fun s => hasTable s = true) (subnet :: rest))
  = ((if hasTable subnet then 1 else 0)
     + length (filter (fun s => hasTable s = true) rest))%nat.
Proof.
  rewrite filter_cons. case_decide as Hd; destruct (hasTable subnet); simpl; congruence.
Qed.

Section SubnetRuns.
Context {St : Type} (sdk : SDK St).

(** The body of the subnet loop, in all its cases: the warning for a
    subnet without a route table; for a subnet with one, nothing and the
    world as it was, or the one create-or-update, for the factory's
    subscription, with the factory kept. *)
Lemma enforceSubnet_cases hubCFG subnet w :
  match subnet_RouteTable subnet with
  | None =>
      enforceSubnet sdk hubCFG subnet w =
        (Ok tt, w,
         [Printed ("WARNING: No route table found for subnet: " +:+ subnet_Name subnet)])
  | Some rt =>
      (events (enforceSubnet sdk hubCFG subnet w) = [] ∧
       final (enforceSubnet sdk hubCFG subnet w) = w) ∨
      (events (enforceSubnet sdk hubCFG subnet w) =
         [CreateOrUpdate (subscriptionID (factory w)) (tableGroup rt) (tableName rt)
            defaultRouteName (routeParams (NVANextHop hubCFG))] ∧
       factory (final (enforceSubnet sdk hubCFG subnet w)) = factory w)
  end.
Proof.
  destruct (subnet_RouteTable subnet) as [rt|] eqn:Hrt.
  - unfold enforceSubnet. rewrite Hrt.
    unfold bind, getFactory, lift, readCloud, NewRoutesClient, newClient. simpl.
    destruct (NewClient sdk RoutesClient _ _ _) as [e|]; [by left|]. simpl.
    fold (tableGroup rt) (tableName rt).
    destruct (scanRoutes hubCFG _ (false, false)) as [flags|msg]; [|by left].
    destruct (negb flags.1 || negb flags.2); [|by left].
    destruct (String.eqb (NVANextHop hubCFG) EmptyString); [by left|].
    rewrite createOrUpdate_once. by right.
  - by apply enforceSubnet_unrouted.
Qed.

Lemma readOnly_enforceSubnet hubCFG subnet : always readOnly (enforceSubnet sdk hubCFG subnet).
Proof.
  intros w Hcalls. pose proof (enforceSubnet_cases hubCFG subnet w) as H.
  destruct (subnet_RouteTable subnet) as [rt|].
  - destruct H as [[_ ->]|[Hev _]]; [done|]. by rewrite Hev in Hcalls.
  - by rewrite H.
Qed.

Lemma boundTo_enforceSubnet sub hubCFG subnet :
  always (boundTo sub) (enforceSubnet sdk hubCFG subnet).
Proof.
  intros w Hsub. pose proof (enforceSubnet_cases hubCFG subnet w) as H.
  destruct (subnet_RouteTable subnet) as [rt|].
  - destruct H as [[-> ->]|[-> ->]]; (split; [done|]).
    + constructor.
    + by repeat constructor.
  - rewrite H. split; [done|]. by repeat constructor.
Qed.

Lemma calls_enforceSubnet hubCFG subnet w :
  (calls (events (enforceSubnet sdk hubCFG subnet w)) ≤ if hasTable subnet then 1 else 0)%nat.
Proof.
  pose proof (enforceSubnet_cases hubCFG subnet w) as H. unfold hasTable.
  destruct (subnet_RouteTable subnet) as [rt|].
  - destruct H as [[-> _]|[-> _]]; cbv; lia.
  - by rewrite H.
Qed.

Lemma calls_forEach hubCFG subnets w :
  (calls (events (forEach (enforceSubnet sdk hubCFG) subnets w))
   ≤ length (filter (fun s => hasTable s = true) subnets))%nat.
Proof.
  revert w. induction subnets as [|subnet rest IH]; intros w; [done|].
  simpl forEach. unfold bind.
  pose proof (calls_enforceSubnet hubCFG subnet w) as Hone.
  destruct (enforceSubnet sdk hubCFG subnet w) as [[[[]|msg] w1] evs1].
  - specialize (IH w1).
    destruct (forEach (enforceSubnet sdk hubCFG) rest w1) as [[o w2] evs2].
    unfold events in *; simpl in *. rewrite calls_app, routed_cons. lia.
  - unfold events in *; simpl in *. rewrite routed_cons. lia.
Qed.

Lemma calls_forPages hubCFG pager w :
  (calls (events (forPages "failed to list subnets: " (enforceSubnet sdk hubCFG) pager w))
   ≤ routedIn pager)%nat.
Proof.
  revert w. induction pager as [|[items|e] pager IH]; intros w; simpl; [done| |cbv; lia].
  unfold bind. pose proof (calls_forEach hubCFG items w) as Hpage.
  destruct (forEach (enforceSubnet sdk hubCFG) items w) as [[[[]|msg] w1] evs1].
  - specialize (IH w1).
    destruct (forPages _ _ pager w1) as [[o w2] evs2].
    unfold events in *; simpl in *. rewrite calls_app. lia.
  - unfold events in *; simpl in *. lia.
Qed.

End SubnetRuns.

Lemma readOnly_refl {St} (w : World St) : readOnly w w [].
Proof. done. Qed.

Lemma readOnly_trans {St} (w w1 w2 : World St) evs1 evs2 :
  readOnly w w1 evs1 → readOnly w1 w2 evs2 → readOnly w w2 (evs1 ++ evs2).
Proof.
  unfold readOnly. rewrite calls_app. intros H1 H2 Hsum.
  rewrite H2 by lia. apply H1. lia.
Qed.

Lemma boundTo_refl {St} sub (w : World St) : boundTo sub w w [].
Proof. by split. Qed.

Lemma boundTo_trans {St} sub (w w1 w2 : World St) evs1 evs2 :
  boundTo sub w w1 evs1 → boundTo sub w1 w2 evs2 → boundTo sub w w2 (evs1 ++ evs2).
Proof.
  intros H1 H2 Hsub. destruct (H1 Hsub) as [Hsub1 Hev1]. destruct (H2 Hsub1) as [Hsub2 Hev2].
  split; [done | by apply Forall_app].
Qed.

(** ** Runs of the enforcement *)

(** With the routing feature off, the body of the subscription loop only
    rebinds the factory, and so does the loop. *)
Lemma enforceSubscription_feature_off {St : Type} (sdk : SDK St)
    (enforceSubnetIsolation : string → M St unit) (cfg : Config)
    (entry : string * SubscriptionConfig) (w : World St) :
  RoutingEnforcement (Features cfg) = false →
  enforceSubscription sdk enforceSubnetIsolation cfg entry w =
    (Ok tt, {| factory := SetSubscriptionID (factory w) entry.1; cloud := cloud w |}, []).
Proof.
  intros Hoff. unfold enforceSubscription, bind, getFactory, setFactory. simpl.
  by rewrite Hoff.
Qed.

Lemma reboundTo_cons (f : ClientFactory) (entry : string * SubscriptionConfig)
    (subs : list (string * SubscriptionConfig)) :
  reboundTo (SetSubscriptionID f entry.1) subs = reboundTo f (entry :: subs).
Proof.
  unfold reboundTo. rewrite last_cons. by destruct (last subs).
Qed.

Lemma forEach_feature_off {St : Type} (sdk : SDK St)
    (enforceSubnetIsolation : string → M St unit) (cfg : Config)
    (subs : list (string * SubscriptionConfig)) (w : World St) :
  RoutingEnforcement (Features cfg) = false →
  forEach (enforceSubscription sdk enforceSubnetIsolation cfg) subs w =
    (Ok tt, {| factory := reboundTo (factory w) subs; cloud := cloud w |}, []).
Proof.
  intros Hoff. revert w. induction subs as [|entry subs IH]; intros w.
  - by destruct w.
  - simpl forEach. unfold bind.
    rewrite (enforceSubscription_feature_off sdk _ cfg entry w Hoff), IH. simpl.
    by rewrite reboundTo_cons.
Qed.

(** X7. Whatever the provider lists and answers, the enforcement of a
    network sends at most one create-or-update per subnet that has a
    route table: the number of calls never exceeds the number of such
    subnets on the pages listed. *)
Theorem calls_bounded_by_routed_subnets {St : Type} (sdk : SDK St)
    (vnetID vnetName : string) (hubCFG : HubVNetConfig) (w : World St) :
  (calls (events (enforceNVARoutingForVNet sdk vnetID vnetName hubCFG w))
   ≤ routedIn (NewListPager_subnets sdk (cloud w) (subscriptionID (factory w))
                 (index (extractResourceIDParts vnetID) "resourceGroups") vnetName))%nat.
Proof.
  unfold enforceNVARoutingForVNet.
  destruct (String.eqb _ EmptyString); [cbv; lia|].
  unfold bind at 1, getFactory. unfold bind at 1, lift, NewSubnetsClient, newClient.
  destruct (NewClient sdk SubnetsClient _ _ _) as [e|]; [cbv; lia|].
  unfold bind at 1, readCloud. simpl.
  pose proof (calls_forPages sdk hubCFG
                (NewListPager_subnets sdk (cloud w) (subscriptionID (factory w))
                   (index (extractResourceIDParts vnetID) "resourceGroups") vnetName) w) as H.
  by destruct (forPages _ _ _ w) as [[o w'] evs].
Qed.

(** X8. The routing enforcement of a scope changes the cloud through
    its create-or-updates only: a run that sent none leaves the cloud as
    it found it, whatever it listed and however it ended. *)
Theorem cloud_untouched_without_call {St : Type} (sdk : SDK St)
    (subID : string) (hubCFG : HubVNetConfig) (w : World St) :
  calls (events (enforceNVARouting sdk subID hubCFG w)) = 0 →
  cloud (final (enforceNVARouting sdk subID hubCFG w)) = cloud w.
Proof.
  apply (always_enforceNVARouting readOnly readOnly_refl readOnly_trans sdk subID hubCFG).
  intros subnet. apply readOnly_enforceSubnet.
Qed.

Lemma cloud_untouched_without_call_witness :
  cloud (final (enforceNVARouting double.scenarioSDK "sub-a" double.hubA
                  {| factory := SetSubscriptionID double.factory0 "sub-b";
                     cloud := cloud double.scenarioWorld |}))
  = cloud double.scenarioWorld.
Proof.
  apply (cloud_untouched_without_call double.scenarioSDK "sub-a" double.hubA
           {| factory := SetSubscriptionID double.factory0 "sub-b";
              cloud := cloud double.scenarioWorld |}).
  reflexivity.
Defined.

(** X9. Every create-or-update sent while a scope is processed is sent
    on behalf of that scope's subscription (the subnet isolation pass,
    which is not in the sources, set aside). *)
Theorem calls_carry_scope_subscription {St : Type} (sdk : SDK St)
    (enforceSubnetIsolation : string → M St unit) (cfg : Config)
    (subID : string) (subCFG : SubscriptionConfig) (w : World St) :
  SubnetToSubnetDeny subCFG = false →
  Forall (sentFor subID)
    (events (enforceSubscription sdk enforceSubnetIsolation cfg (subID, subCFG) w)).
Proof.
  intros Hdeny. unfold enforceSubscription.
  unfold bind at 1, getFactory. unfold bind at 1, setFactory. simpl.
  set (w1 := {| factory := SetSubscriptionID (factory w) subID; cloud := cloud w |}).
  set (rest := if RoutingEnforcement (Features cfg) then _ else _).
  assert (always (boundTo subID) rest) as Hrest.
  { subst rest. destruct (RoutingEnforcement (Features cfg));
      [|apply always_ret, boundTo_refl].
    destruct (findHub _ _) as [hubCFG|]; [|apply always_fail, boundTo_refl].
    apply always_bind; [apply boundTo_trans| |intros _].
    - destruct (RequireNVARouting subCFG); [|apply always_ret, boundTo_refl].
      apply always_wrapErr.
      apply always_enforceNVARouting; [apply boundTo_refl | apply boundTo_trans |].
      intros subnet. apply boundTo_enforceSubnet.
    - simpl. rewrite Hdeny. apply always_ret, boundTo_refl. }
  destruct (Hrest w1) as [_ Hev]; [done|].
  by destruct (rest w1) as [[o w2] evs].
Qed.

Lemma calls_carry_scope_subscription_witness :
  Forall (sentFor "sub-a")
    (events (enforceSubscription (double.cloudWith [PageOk []] None) double.noIsolation
               double.scenarioConfig ("sub-a", double.subscription "hub-a") double.world0)).
Proof.
  apply (calls_carry_scope_subscription (double.cloudWith [PageOk []] None) double.noIsolation
           double.scenarioConfig "sub-a" (double.subscription "hub-a") double.world0).
  reflexivity.
Defined.

(** X10. With the routing feature off, [EnforceAll] makes no provider
    call and reports no error, whatever the subscriptions ask for and
    whether or not their hubs exist: nothing is logged, the cloud is as it
    was, and the factory is left bound to the last subscription
    visited. *)
Theorem feature_off_no_enforcement {St : Type} (sdk : SDK St)
    (enforceSubnetIsolation : string → M St unit) (cfg : Config) (w : World St) :
  RoutingEnforcement (Features cfg) = false →
  EnforceAll sdk enforceSubnetIsolation cfg w =
    (Ok tt, {| factory := reboundTo (factory w) (Subscriptions cfg); cloud := cloud w |}, []).
Proof. intros Hoff. by apply forEach_feature_off. Qed.

Lemma scanRoutes_failed_page (hubCFG : HubVNetConfig) (pages : list (list Route))
    (e : ResponseError) (more : Pager Route) (flags : Flags) :
  scanRoutes hubCFG ((PageOk <$> pages) ++ PageErr e :: more) flags
  = Err ("failed to list routes: " +:+ errText e).
Proof. revert flags. induction pages as [|page pages IH]; intros flags; simpl; [done | apply IH]. Qed.

(** X11. A page of the route listing that fails fails the subnet, even
    after pages that held a compliant default route: the enforcement
    returns "failed to list routes: ..." and sends nothing. *)
Theorem listing_failure_fails_subnet {St : Type} (sdk : SDK St)
    (hubCFG : HubVNetConfig) (subnet : Subnet) (rt : RouteTable)
    (pages : list (list Route)) (e : ResponseError) (more : Pager Route) (w : World St) :
  subnet_RouteTable subnet = Some rt →
  clientAvailable sdk RoutesClient w →
  routesOf sdk w rt = (PageOk <$> pages) ++ PageErr e :: more →
  enforceSubnet sdk hubCFG subnet w = (Err ("failed to list routes: " +:+ errText e), w, []).
Proof.
  intros Hrt Hclient Hpages.
  rewrite (enforceSubnet_routed sdk hubCFG subnet rt w Hrt Hclient), Hpages.
  by rewrite scanRoutes_failed_page.
Qed.

Lemma listing_failure_fails_subnet_witness :
  enforceSubnet (double.cloudWith [PageOk [double.toNVA]; PageErr double.throttled] None)
    double.hubA double.routed double.world0
  = (Err "failed to list routes: 429 Too Many Requests", double.world0, []).
Proof.
  apply (listing_failure_fails_subnet
           (double.cloudWith [PageOk [double.toNVA]; PageErr double.throttled] None)
           double.hubA double.routed {| rt_ID := double.rtID |}
           [[double.toNVA]] double.throttled [] double.world0); reflexivity.
Defined.

(** X12. The hub of a scope is the first hub of the configuration that
    carries the referenced name: [findHub] returns a hub exactly when it
    has that name and no hub before it has. *)
Theorem findHub_first_match (hubs : list HubVNetConfig) (hubName : string)
    (hub : HubVNetConfig) :
  findHub hubs hubName = Some hub ↔
    ∃ before after, hubs = before ++ hub :: after ∧ Name hub = hubName ∧
                    ∀ h, h ∈ before → Name h ≠ hubName.
Proof.
  split.
  - induction hubs as [|h rest IH]; simpl; [done|].
    destruct (String.eqb_spec (Name h) hubName) as [Heq|Hne].
    + intros [= <-]. exists [], rest. repeat split; [done|].
      intros h' Hin. by apply elem_of_nil in Hin.
    + intros H. destruct (IH H) as (before & after & -> & Hname & Hbefore).
      exists (h :: before), after. repeat split; [done|].
      intros h' Hin. apply elem_of_cons in Hin as [->|Hin]; [done | by apply Hbefore].
  - intros (before & after & -> & Hname & Hbefore).
    induction before as [|h before IH]; simpl.
    + by rewrite (proj2 (String.eqb_eq _ _) Hname).
    + rewrite (proj2 (String.eqb_neq _ _)) by (apply Hbefore; constructor).
      apply IH. intros h' Hin. apply Hbefore. by constructor.
Qed.

Lemma feature_off_no_enforcement_witness :
  EnforceAll (double.cloudWith [PageOk []] None) double.noIsolation
    (overrideFromEnv fixture.getenv fixture.toLower fixture.atoi
       (double.configOf [double.hubA]
          [("sub-a", double.subscription "hub-b"); ("sub-b", double.subscription "hub-a")])).1
    double.world0
  = (Ok tt, {| factory := SetSubscriptionID double.factory0 "sub-b"; cloud := tt |}, []).
Proof.
  apply (feature_off_no_enforcement (double.cloudWith [PageOk []] None) double.noIsolation
           (overrideFromEnv fixture.getenv fixture.toLower fixture.atoi
              (double.configOf [double.hubA]
                 [("sub-a", double.subscription "hub-b");
                  ("sub-b", double.subscription "hub-a")])).1
           double.world0).
  reflexivity.
Defined.

(** ** From the environment to the run *)

(** X13. Setting [VELORA_FEATURE_ROUTING_ENFORCEMENT] to anything that
    does not lower-case to [true] switches routing enforcement off,
    whatever the file says: on the configuration the overrides produce,
    [EnforceAll] makes no provider call, logs nothing and returns no
    error. *)
Theorem routing_disabled_from_environment {St : Type} (sdk : SDK St)
    (enforceSubnetIsolation : string → M St unit)
    (Getenv : string → string) (ToLower : string → string) (Atoi : string → option Z)
    (cfg cfg' : Config) (w : World St) :
  Getenv "VELORA_FEATURE_ROUTING_ENFORCEMENT" ≠ EmptyString →
  ToLower (Getenv "VELORA_FEATURE_ROUTING_ENFORCEMENT") ≠ "true" →
  overrideFromEnv Getenv ToLower Atoi cfg = (cfg', None) →
  EnforceAll sdk enforceSubnetIsolation cfg' w =
    (Ok tt, {| factory := reboundTo (factory w) (Subscriptions cfg); cloud := cloud w |}, []).
Proof.
  intros Hset Hvalue Hover.
  destruct (overrideFromEnv_ok Getenv ToLower Atoi cfg cfg' Hover) as (_ & Hfeat & _ & Hsubs).
  assert (RoutingEnforcement (Features cfg') = false) as Hoff.
  { rewrite Hfeat. simpl. unfold flagOrEnv. cbv zeta.
    change (EnvPrefix +:+ "FEATURE_ROUTING_ENFORCEMENT")
      with "VELORA_FEATURE_ROUTING_ENFORCEMENT".
    apply String.eqb_neq in Hset, Hvalue. by rewrite Hset, Hvalue. }
  unfold EnforceAll. rewrite Hsubs. by apply forEach_feature_off.
Qed.

Lemma routing_disabled_from_environment_witness :
  EnforceAll (double.cloudWith [PageOk []] None) double.noIsolation
    (overrideFromEnv fixture.getenv fixture.toLower fixture.atoi double.scenarioConfig).1
    double.world0
  = (Ok tt, {| factory := SetSubscriptionID double.factory0 "sub-a"; cloud := tt |}, []).
Proof.
  apply (routing_disabled_from_environment (double.cloudWith [PageOk []] None)
           double.noIsolation fixture.getenv fixture.toLower fixture.atoi
           double.scenarioConfig
           (overrideFromEnv fixture.getenv fixture.toLower fixture.atoi
              double.scenarioConfig).1 double.world0).
  - discriminate.
  - discriminate.
  - reflexivity.
Defined.

(** X14. A configuration that [LoadConfig] returns has passed
    [Validate], and its hubs and subscriptions are those decoded from the
    file that was read: the environment cannot add, remove or alter
    them. *)
Theorem LoadConfig_returns_valid (Getenv : string → string)
    (ReadFile : string → Outcome string) (Unmarshal : string → Outcome Config)
    (ToLower : string → string) (Atoi : string → option Z)
    (ParseCIDR ParseIP : string → bool) (path : string) (cfg : Config) :
  LoadConfig Getenv ReadFile Unmarshal ToLower Atoi ParseCIDR ParseIP path = Ok cfg →
  Validate ParseCIDR ParseIP cfg = None ∧
  ∃ data raw, ReadFile (configPath Getenv path) = Ok data ∧ Unmarshal data = Ok raw ∧
              Hubs cfg = Hubs raw ∧ Subscriptions cfg = Subscriptions raw.
Proof.
  unfold LoadConfig, loadFromFile.
  destruct (ReadFile (configPath Getenv path)) as [data|e] eqn:Hread; [|done].
  destruct (Unmarshal data) as [raw|e] eqn:Hdecode; [|done].
  pose proof (overrideFromEnv_scopes Getenv ToLower Atoi raw) as [Hhubs Hsubs].
  destruct (overrideFromEnv Getenv ToLower Atoi raw) as [cfg' [e|]]; [done|].
  destruct (Validate ParseCIDR ParseIP cfg') as [e|] eqn:Hvalid; [done|].
  intros [= <-]. split; [done|]. by exists data, raw.
Qed.

Lemma LoadConfig_returns_valid_witness :
  Validate double.parseCIDR double.parseIP
    (overrideFromEnv fixture.getenv fixture.toLower fixture.atoi double.scenarioConfig).1
  = None.
Proof.
  apply (LoadConfig_returns_valid fixture.getenv fixture.readFile
           (fixture.unmarshal double.scenarioConfig) fixture.toLower fixture.atoi
           double.parseCIDR double.parseIP "velora.json"
           (overrideFromEnv fixture.getenv fixture.toLower fixture.atoi
              double.scenarioConfig).1).
  reflexivity.
Defined.

(** X15. An explicit path wins over [VELORA_CONFIG]: with a non-empty
    path argument, [LoadConfig] gives the same result in two environments
    that differ in that variable only. *)
Theorem LoadConfig_explicit_path (Getenv Getenv' : string → string)
    (ReadFile : string → Outcome string) (Unmarshal : string → Outcome Config)
    (ToLower : string → string) (Atoi : string → option Z)
    (ParseCIDR ParseIP : string → bool) (path : string) :
  path ≠ EmptyString →
  (∀ k, k ≠ "VELORA_CONFIG" → Getenv k = Getenv' k) →
  LoadConfig Getenv ReadFile Unmarshal ToLower Atoi ParseCIDR ParseIP path
  = LoadConfig Getenv' ReadFile Unmarshal ToLower Atoi ParseCIDR ParseIP path.
Proof.
  intros Hpath Hagree. unfold LoadConfig, configPath.
  apply String.eqb_neq in Hpath. rewrite Hpath.
  destruct (loadFromFile ReadFile Unmarshal path) as [raw|e]; [|done].
  assert (overrideFromEnv Getenv ToLower Atoi raw = overrideFromEnv Getenv' ToLower Atoi raw)
    as ->; [|done].
  unfold overrideFromEnv, overrideAzure, overrideFeatures, overrideLogging, orEnv, flagOrEnv.
  cbv zeta.
  rewrite (Hagree (EnvPrefix +:+ "AZURE_SUBSCRIPTION_ID")) by discriminate.
  rewrite (Hagree (EnvPrefix +:+ "AZURE_TENANT_ID")) by discriminate.
  rewrite (Hagree (EnvPrefix +:+ "AZURE_CLIENT_ID")) by discriminate.
  rewrite (Hagree (EnvPrefix +:+ "FEATURE_IPAM_ENFORCEMENT")) by discriminate.
  rewrite (Hagree (EnvPrefix +:+ "FEATURE_ROUTING_ENFORCEMENT")) by discriminate.
  rewrite (Hagree (EnvPrefix +:+ "FEATURE_PEERING_ENFORCEMENT")) by discriminate.
  rewrite (Hagree (EnvPrefix +:+ "FEATURE_COMPLIANCE_SCANNING")) by discriminate.
  rewrite (Hagree (EnvPrefix +:+ "FEATURE_AUTO_REMEDIATION")) by discriminate.
  rewrite (Hagree (EnvPrefix +:+ "API_LISTEN_ADDRESS")) by discriminate.
  rewrite (Hagree (EnvPrefix +:+ "API_PORT")) by discriminate.
  rewrite (Hagree (EnvPrefix +:+ "LOGGING_LEVEL")) by discriminate.
  rewrite (Hagree (EnvPrefix +:+ "LOGGING_FORMAT")) by discriminate.
  reflexivity.
Qed.

Lemma LoadConfig_explicit_path_witness :
  LoadConfig fixture.getenvWithConfig fixture.readFile
    (fixture.unmarshal double.scenarioConfig) fixture.toLower fixture.atoi
    double.parseCIDR double.parseIP "velora.json"
  = LoadConfig fixture.getenv fixture.readFile
      (fixture.unmarshal double.scenarioConfig) fixture.toLower fixture.atoi
      double.parseCIDR double.parseIP "velora.json".
Proof.
  apply (LoadConfig_explicit_path fixture.getenvWithConfig fixture.getenv fixture.readFile
           (fixture.unmarshal double.scenarioConfig) fixture.toLower fixture.atoi
           double.parseCIDR double.parseIP "velora.json").
  - discriminate.
  - intros k Hk. unfold fixture.getenvWithConfig.
    apply String.eqb_neq in Hk. by rewrite Hk.
Defined.

(** X16. A factory made from a loaded configuration starts bound to the
    subscription of [VELORA_AZURE_SUBSCRIPTION_ID] when that variable is
    set, whatever the file says. *)
Theorem factory_subscription_from_environment (Getenv : string → string)
    (ToLower : string → string) (Atoi : string → option Z)
    (NewDefaultAzureCredential : option string)
    (NewClientSecretCredential : string → string → string → option string)
    (cfg cfg' : Config) (f : ClientFactory) :
  Getenv "VELORA_AZURE_SUBSCRIPTION_ID" ≠ EmptyString →
  overrideFromEnv Getenv ToLower Atoi cfg = (cfg', None) →
  NewClientFactory NewDefaultAzureCredential NewClientSecretCredential (Azure cfg') = Ok f →
  GetSubscriptionID f = Getenv "VELORA_AZURE_SUBSCRIPTION_ID".
Proof.
  intros Hset Hover Hnew.
  destruct (overrideFromEnv_ok Getenv ToLower Atoi cfg cfg' Hover) as (Hazure & _).
  assert (SubscriptionID (Azure cfg') = Getenv "VELORA_AZURE_SUBSCRIPTION_ID") as Hsub.
  { rewrite Hazure. simpl. unfold orEnv. cbv zeta.
    change (EnvPrefix +:+ "AZURE_SUBSCRIPTION_ID") with "VELORA_AZURE_SUBSCRIPTION_ID".
    apply String.eqb_neq in Hset. by rewrite Hset. }
  revert Hnew. unfold NewClientFactory, GetSubscriptionID. rewrite <- Hsub.
  destruct (UseAzureIdentity (Azure cfg')).
  - destruct NewDefaultAzureCredential; [done|]. by intros [= <-].
  - destruct (NewClientSecretCredential _ _ _); [done|]. by intros [= <-].
Qed.

Lemma factory_subscription_from_environment_witness :
  GetSubscriptionID
    {| cred := DefaultAzureCredential; clientOptions := EmptyClientOptions;
       subscriptionID := "sub-env" |}
  = fixture.getenv "VELORA_AZURE_SUBSCRIPTION_ID".
Proof.
  apply (factory_subscription_from_environment fixture.getenv fixture.toLower fixture.atoi
           fixture.credentialOk fixture.secretOk double.scenarioConfig
           (overrideFromEnv fixture.getenv fixture.toLower fixture.atoi
              double.scenarioConfig).1).
  - discriminate.
  - reflexivity.
  - reflexivity.
Defined.

(** ** Resource IDs *)

Lemma append_empty (s : string) : s +:+ EmptyString = s.
Proof.
  induction s as [|c s IH]; [done|].
  change (String c s +:+ EmptyString) with (String c (s +:+ EmptyString)). by rewrite IH.
Qed.

Lemma Split_segment (seg rest : string) :
  noSlash seg = true →
  gostrings.Split "/"%char (seg +:+ String "/"%char rest) = seg :: gostrings.Split "/"%char rest.
Proof.
  induction seg as [|c seg IH]; intros Hseg.
  - reflexivity.
  - simpl in Hseg. apply andb_true_iff in Hseg as [Hc Hseg].
    change (String c seg +:+ String "/"%char rest) with (String c (seg +:+ String "/"%char rest)).
    simpl gostrings.Split. apply negb_true_iff in Hc. rewrite Hc, IH by done. reflexivity.
Qed.

Lemma Split_last_segment (seg : string) :
  noSlash seg = true → gostrings.Split "/"%char seg = [seg].
Proof.
  induction seg as [|c seg IH]; intros Hseg; [reflexivity|].
  simpl in Hseg. apply andb_true_iff in Hseg as [Hc Hseg].
  simpl. apply negb_true_iff in Hc. by rewrite Hc, IH.
Qed.

Lemma Split_name_resourceID (pairs : list (string * string)) (v : string) :
  (∀ k v', (k, v') ∈ pairs → noSlash k = true ∧ noSlash v' = true) →
  noSlash v = true →
  gostrings.Split "/"%char (v +:+ resourceID pairs)
  = v :: flat_map (fun p => [p.1; p.2]) pairs.
Proof.
  revert v. induction pairs as [|[k v'] rest IH]; intros v Hfree Hv.
  - simpl resourceID. rewrite append_empty. by apply Split_last_segment.
  - destruct (Hfree k v') as [Hk Hv']; [constructor|].
    change (resourceID ((k, v') :: rest))
      with (String "/"%char (k +:+ String "/"%char (v' +:+ resourceID rest))).
    rewrite !Split_segment by done. rewrite IH; [done| |done].
    intros k0 v0 Hin. apply Hfree. by constructor.
Qed.

(** The segments after the first of a written resource ID are its kinds
    and names in order. *)
Lemma Split_resourceID (pairs : list (string * string)) :
  (∀ k v, (k, v) ∈ pairs → noSlash k = true ∧ noSlash v = true) →
  tail (gostrings.Split "/"%char (resourceID pairs))
  = flat_map (fun p => [p.1; p.2]) pairs.
Proof.
  intros Hfree. destruct pairs as [|[k v] rest]; [reflexivity|].
  destruct (Hfree k v) as [Hk Hv]; [constructor|].
  change (resourceID ((k, v) :: rest))
    with (EmptyString +:+ String "/"%char (k +:+ String "/"%char (v +:+ resourceID rest))).
  rewrite !Split_segment by done. simpl tail.
  rewrite Split_name_resourceID; [done| |done].
  intros k0 v0 Hin. apply Hfree. by constructor.
Qed.

Lemma pairUp_absent (pairs : list (string * string)) (m : gmap string string) (k : string) :
  k ∉ pairs.*1 → pairUp (flat_map (fun p => [p.1; p.2]) pairs) m !! k = m !! k.
Proof.
  revert m. induction pairs as [|[k0 v0] rest IH]; intros m Hk; [done|].
  simpl in *. apply not_elem_of_cons in Hk as [Hne Hk].
  rewrite IH by done. by rewrite lookup_insert_ne.
Qed.

Lemma pairUp_present (pairs : list (string * string)) (m : gmap string string) (k v : string) :
  NoDup pairs.*1 → (k, v) ∈ pairs →
  pairUp (flat_map (fun p => [p.1; p.2]) pairs) m !! k = Some v.
Proof.
  revert m. induction pairs as [|[k0 v0] rest IH]; intros m Hnodup Hin.
  - by apply elem_of_nil in Hin.
  - simpl in *. apply NoDup_cons in Hnodup as [Hfresh Hnodup].
    apply elem_of_cons in Hin as [[= -> ->]|Hin].
    + rewrite pairUp_absent by done. apply lookup_insert_eq.
    + by apply IH.
Qed.

(** X17. Reading back a written resource ID: for an ID
    [/kind1/name1/kind2/name2...] whose segments hold no slash and whose
    kinds are distinct, [extractResourceIDParts] gives each kind its
    name, and the empty string for a kind the ID does not have. *)
Theorem extractResourceIDParts_reads_back (pairs : list (string * string)) :
  (∀ k v, (k, v) ∈ pairs → noSlash k = true ∧ noSlash v = true) →
  NoDup pairs.*1 →
  (∀ k v, (k, v) ∈ pairs → index (extractResourceIDParts (resourceID pairs)) k = v) ∧
  (∀ k, k ∉ pairs.*1 → index (extractResourceIDParts (resourceID pairs)) k = EmptyString).
Proof.
  intros Hfree Hnodup. unfold index, extractResourceIDParts.
  rewrite Split_resourceID by done. split.
  - intros k v Hin. by rewrite (pairUp_present pairs ∅ k v).
  - intros k Hk. by rewrite pairUp_absent.
Qed.

Lemma extractResourceIDParts_reads_back_witness :
  index (extractResourceIDParts
           (resourceID [("subscriptions", "sub-a"); ("resourceGroups", "rg1");
                        ("providers", "Microsoft.Network"); ("routeTables", "rt1")]))
    "routeTables" = "rt1".
Proof.
  destruct (extractResourceIDParts_reads_back
              [("subscriptions", "sub-a"); ("resourceGroups", "rg1");
               ("providers", "Microsoft.Network"); ("routeTables", "rt1")]) as [Hread _].
  - intros k v Hin. repeat (apply elem_of_cons in Hin as [[= -> ->]|Hin]; [by split|]).
    by apply elem_of_nil in Hin.
  - apply (bool_decide_unpack _). vm_compute. exact I.
  - apply Hread. do 3 apply list_elem_of_further. constructor.
Defined.

(** X18. The segment before the first slash of a resource ID is never
    read: only the segments after it are paired into kinds and names. *)
Theorem extractResourceIDParts_skips_first_segment (first rest : string) :
  noSlash first = true →
  extractResourceIDParts (first +:+ "/" +:+ rest) = extractResourceIDParts ("/" +:+ rest).
Proof.
  intros Hfirst. unfold extractResourceIDParts.
  change (first +:+ "/" +:+ rest) with (first +:+ String "/"%char rest).
  rewrite Split_segment by done.
  change ("/" +:+ rest) with (EmptyString +:+ String "/"%char rest).
  by rewrite Split_segment.
Qed.

Lemma extractResourceIDParts_skips_first_segment_witness :
  extractResourceIDParts ("resourceGroups" +:+ "/" +:+ "rg1/routeTables/rt1")
  = extractResourceIDParts ("/" +:+ "rg1/routeTables/rt1").
Proof.
  apply (extractResourceIDParts_skips_first_segment "resourceGroups" "rg1/routeTables/rt1").
  reflexivity.
Defined.

(** X19. A network whose ID names no resource group is rejected before
    any provider call: for a written ID without the kind
    [resourceGroups], [enforceNVARoutingForVNet] returns "invalid VNet ID
    format: ..." with nothing listed, sent or changed. *)
Theorem vnet_without_resource_group_rejected {St : Type} (sdk : SDK St)
    (pairs : list (string * string)) (vnetName : string) (hubCFG : HubVNetConfig)
    (w : World St) :
  (∀ k v, (k, v) ∈ pairs → noSlash k = true ∧ noSlash v = true) →
  "resourceGroups" ∉ pairs.*1 →
  enforceNVARoutingForVNet sdk (resourceID pairs) vnetName hubCFG w
  = (Err ("invalid VNet ID format: " +:+ resourceID pairs), w, []).
Proof.
  intros Hfree Habsent. unfold enforceNVARoutingForVNet.
  assert (index (extractResourceIDParts (resourceID pairs)) "resourceGroups" = EmptyString)
    as ->; [|done].
  unfold index, extractResourceIDParts. rewrite Split_resourceID by done.
  by rewrite pairUp_absent.
Qed.

Lemma vnet_without_resource_group_rejected_witness :
  enforceNVARoutingForVNet (double.cloudWith [PageOk []] None)
    (resourceID [("subscriptions", "sub-a"); ("virtualNetworks", "vnet1")])
    "vnet1" double.hubA double.world0
  = (Err "invalid VNet ID format: /subscriptions/sub-a/virtualNetworks/vnet1",
     double.world0, []).
Proof.
  apply (vnet_without_resource_group_rejected (double.cloudWith [PageOk []] None)
           [("subscriptions", "sub-a"); ("virtualNetworks", "vnet1")]
           "vnet1" double.hubA double.world0).
  - intros k v Hin. repeat (apply elem_of_cons in Hin as [[= -> ->]|Hin]; [by split|]).
    by apply elem_of_nil in Hin.
  - apply (bool_decide_unpack _). vm_compute. exact I.
Defined.

(** ** A client that cannot be created *)

(** X20. When the SDK cannot create the virtual networks client for a
    scope, the scope fails before anything is listed or sent: the error of
    the SDK comes back wrapped by the factory and by [EnforceAll], and the
    client was asked for the scope's own subscription. *)
Theorem client_failure_fails_scope {St : Type} (sdk : SDK St)
    (enforceSubnetIsolation : string → M St unit) (cfg : Config)
    (subID : string) (subCFG : SubscriptionConfig) (hubCFG : HubVNetConfig)
    (e : ResponseError) (w : World St) :
  RoutingEnforcement (Features cfg) = true →
  findHub (Hubs cfg) (HubName subCFG) = Some hubCFG →
  RequireNVARouting subCFG = true →
  NewClient sdk VirtualNetworksClient subID (cred (factory w)) (clientOptions (factory w))
    = Some e →
  enforceSubscription sdk enforceSubnetIsolation cfg (subID, subCFG) w =
    (Err ("failed to enforce NVA routing for subscription " +:+ subID
          +:+ ": failed to create azure virtual networks client: " +:+ errText e),
     {| factory := SetSubscriptionID (factory w) subID; cloud := cloud w |}, []).
Proof.
  intros Hfeat Hhub Hnva Hclient.
  unfold enforceSubscription, bind, getFactory, setFactory. simpl.
  rewrite Hfeat, Hhub, Hnva.
  unfold wrapErr, enforceNVARouting, bind, getFactory, lift, NewVirtualNeworksClient,
    newClient. simpl. rewrite Hclient. by rewrite !append_assoc.
Qed.

Lemma client_failure_fails_scope_witness :
  enforceSubscription
    {| NewClient := fun _ _ _ _ => Some double.throttled;
       NewListAllPager := fun (_ : unit) _ => [];
       NewListPager_subnets := fun _ _ _ _ => [];
       NewListPager_routes := fun _ _ _ _ => [];
       BeginCreateOrUpdate := fun st _ _ _ _ _ => (None, st) |}
    double.noIsolation double.scenarioConfig ("sub-a", double.subscription "hub-a")
    double.world0
  = (Err "failed to enforce NVA routing for subscription sub-a: failed to create azure virtual networks client: 429 Too Many Requests",
     {| factory := SetSubscriptionID double.factory0 "sub-a"; cloud := tt |}, []).
Proof.
  apply (client_failure_fails_scope
           {| NewClient := fun _ _ _ _ => Some double.throttled;
              NewListAllPager := fun (_ : unit) _ => [];
              NewListPager_subnets := fun _ _ _ _ => [];
              NewListPager_routes := fun _ _ _ _ => [];
              BeginCreateOrUpdate := fun st _ _ _ _ _ => (None, st) |}
           double.noIsolation double.scenarioConfig "sub-a" (double.subscription "hub-a")
           double.hubA double.throttled double.world0); reflexivity.
Defined.
